(* ===== verification/_CoqProject ===== *)
-Q . S2P
Prelude.v
Store.v
Board.v
Validate.v
Rules.v
Heap.v
Runs.v
Calls.v
