(* ===== verification/Prelude.v ===== *)
(** * A verification development of [src/my_sudoku.py]

    THE PROGRAM.  [src/my_sudoku.py] is one Python class, [Sudoku], a
    9x9 sudoku board.  Its only state is the attribute [self.numbers], a
    list of rows, each a list of cells [int | None].  Its methods:
    - [__init__(numbers=None)] stores the grid it is given, or builds a
      9x9 grid of [None] when the argument is [None] or empty;
    - [get_cell(pos)] and [set_cell(pos, value)] read and write the cell
      at [pos = [column, row]], both counted from 1, after [assert]s on
      the column, the row and (for [set_cell]) the value;
    - [get_sudoku()] returns the live grid, [set_sudoku(numbers)] replaces
      it without any check;
    - [validate()] scans every row, then every "column", for a repeated
      value, and builds a list of box coordinates; it returns [False] from
      inside a loop or falls off its end.
    The methods interact only through [self.numbers].

    THE FILES.
    - [Prelude.v] (this file): the Python runtime the code relies on:
      exceptions ([exn]: [AssertionError] with the message's arguments,
      [IndexError], [TypeError]), results ([pyres], with the bind notation
      [x <- c ;; k] of [py_scope]), [assert], [len], [l[i]] with negative
      indices, [l[i] = x], [range], [x in l] and list comprehensions
      ([py_mapM]); their lemmas, the hint databases [py] and [pyrw] and
      the tactics [py_run], [py_inv], [py_bool].
    - [Board.v], Module [Board]: the state as the record [Sudoku] with the
      field [numbers]; [init] ([__init__]), [get_cell], [set_cell] with the
      guards [assert_column_pos], [assert_row_pos], [assert_value] (the
      chained comparisons through [py_between]), [get_sudoku],
      [set_sudoku].  Each method is a function of the state returning
      [pyres]; [set_cell] returns the new state.
    - [Validate.v], Module [Validate]: [scan_line] (the [seen]-list loop),
      [validate_rows], [get_column] (the comprehension of line 67),
      [validate_columns], the literal [boxes], and [validate], which
      returns [pyres (option bool)]: [Some false] for [return False],
      [None] for the implicit [return None].
    - [Rules.v], Module [Rules]: the abstract contract, the rules of
      sudoku over rows, columns and boxes ([sudoku_valid]), and how
      [validate] relates to it.
    - [Heap.v], Module [Heap]: the same methods over a heap of Python
      list objects ([gmap] from locations to [GridObj]/[RowObj]), where
      [self.numbers] is a reference: [h_init] (allocating the default
      rows), [h_get_cell], [h_set_cell] (mutating the row object in
      place), [h_get_sudoku] (returning the reference), [h_set_sudoku],
      [h_validate]; [heap_repr] relates a heap to the [Board] grid it
      holds.
    - [Store.v], Module [Store]: what the board promises a caller, as
      the typeclass interface [CellStore] ([store_get], [store_set],
      [store_ok]) with its laws [CellStoreLaws]; its abstract
      specification, a [gmap] from the 81 positions to what a read
      answers ([abs_of]); the client [run_sets], a caller's sequence of
      [set_cell] calls, proved against the interface only.
      [Runs.v], Module [Runs]: the two implementations of the interface
      (instances [board_laws] for [Board], [heap_laws] for the heap,
      whose laws are discharged from [Board]'s lemmas and the heap
      simulation) and runs of writes on both.
    - [Calls.v], Module [Calls]: a caller's view of one object as a
      state machine: [exec] dispatches a method call ([call]) and returns
      the answer or exception and the object afterwards (a raising call
      leaves it unchanged, since every method writes [self.numbers] in
      its last statement); [exec_run] a sequence of calls; [reachable]
      the boards reached from [__init__] by documented calls.
    The files are listed in [_CoqProject] in dependency order:
    Prelude, Store, Board, Validate, Rules, Heap, Runs, Calls.

    THE THEOREMS.
    - Accessors ([Board.v]): [get_cell] reads the cell at [(c, r)]
      ([get_cell_spec]); [set_cell] followed by [get_cell] returns the
      value written ([set_cell_get_cell]); the well-formedness invariant
      (9x9, cells [None] or 1..9) is preserved ([set_cell_preserves_wf]);
      every error branch: column before row before value
      ([get_cell_out_of_range], [set_cell_out_of_range],
      [set_cell_bad_value]); [set_cell] with [None] always raises
      [TypeError] ([set_cell_none_raises], [set_cell_none_never_ok]); the
      constructor ([init_default]); [set_sudoku] stores any grid, and on
      a ragged one [get_cell] raises [IndexError] past a short row
      ([set_sudoku_unchecked]).  The frame property of [set_cell] is
      stated over the heap, where it needs distinct rows.
    - [validate] ([Validate.v]): the scan loop decides [NoDup]
      ([scan_line_correct]); the column phase re-reads the rows
      ([validate_columns_reads_rows]); on 9x9 boards [validate] answers
      [False] iff a row repeats a cell and [None] otherwise
      ([validate_shape9], [validate_row_duplicate]); it never answers
      [True] ([validate_never_true]); it passes only boards with at most
      nine empty cells ([validate_none_few_empty]); permuting the cells
      of each row, and so any column or box, never changes its answer
      ([validate_permute_rows]); its [IndexError] on wide grids
      ([validate_wide_grid]).
    - The heap ([Heap.v]): on grids without shared row objects
      [h_set_cell] simulates [Board.set_cell], errors included
      ([h_set_cell_refines]), and changes no other position
      ([h_set_cell_frame]); the default constructor builds such a grid
      ([h_init_default]).  Aliasing: a write to a row shared by two slots
      shows in both ([h_shared_row_write]); writes through the reference
      [get_sudoku] returns, or through the list given to the
      constructor, reach the board and bypass the value check
      ([h_get_sudoku_write_visible], [h_init_shares_argument]).
    - Against the rules ([Rules.v]): [validate] refines the row rule only
      ([validate_refines_row_rule], [validate_full_board]); the documented
      contract holds exactly on boards that repeat a cell in a row and
      break a rule ([validate_contract_iff]).
    - Runs of writes ([Store.v], [Runs.v]): against the interface, a run
      of valid writes refines the abstract board, the last write to a
      position winning ([run_sets_abs], [run_sets_get]); instantiated for
      the heap with distinct rows ([heap_run_last_write]); runs over such
      a heap simulate runs of the value model, errors included
      ([heap_run_simulates]); every well-formed board is reached from
      [Sudoku()] by [set_cell] calls, in both models
      ([every_board_reachable], [h_every_board_reachable]).
    - Sequences of calls ([Calls.v]), by induction on [reachable] and on
      runs: reachable boards are well formed ([reachable_wf]); reads on
      them return [None] or a digit ([reachable_get_cell]); no call with
      arguments in the documented ranges raises on them
      ([reachable_calls_succeed]); no sequence of calls without
      [set_sudoku] empties a cell ([exec_run_keeps_filled]).

    CHOICES.  Python's [int] is [Z] (unbounded); a cell is [option Z]; the
    grid is a list of lists indexed with stdpp's [!!] and [<[_:=_]>], with
    Python's out-of-range [IndexError] written out ([py_getitem],
    [py_setitem]).  All loops are structural recursion over lists, so no
    fuel is needed and every function is total and computes
    ([vm_compute] runs the model on concrete boards).  [pos] is a list of
    integers, as in the code, so a position with fewer than two
    coordinates raises [IndexError].

    In [Board.v] the rows of [self.numbers] are values; [Heap.v] models
    the list objects and their sharing, and its refinement theorems say
    when the value model is exact (no two slots of the grid object hold
    the same row object).  In the heap, a reference always leads to an
    object of the kind the type hints promise; the [TypeError] of
    [load_grid]/[load_row] is Python's answer otherwise.

    NOT MODELLED.  The "method of displaying" the board named in the
    module docstring does not exist in the code.  Python's [int] is
    unbounded, so no machine-width bound applies; every loop of the code
    runs over a finite list, which the structural recursion of the model
    mirrors, so termination needs no separate theorem.  The caller's own
    code is not part of the repository: [run_sets], [writes_of], [exec]
    and [exec_run] stand for any caller and are not mapped to source
    lines. *)

From Stdlib Require Import ZArith Lia.
From stdpp Require Import base list option.

(** ** Python exceptions raised by the modelled code *)

(** The argument of a failed [assert] statement: the f-string message of
    each [assert] of [my_sudoku.py], with the values it interpolates. *)
Inductive assert_msg :=
  | ColumnPositionInvalid (z : Z)
  | RowPositionInvalid (z : Z)
  | NewValueInvalid (v : option Z).

Inductive exn :=
  | AssertionError (m : assert_msg)
  | IndexError
  | TypeError.

#[export] Instance assert_msg_eq_dec : EqDecision assert_msg.
Proof. solve_decision. Defined.
#[export] Instance exn_eq_dec : EqDecision exn.
Proof. solve_decision. Defined.

(** A Python computation either returns a value or raises. *)
Inductive pyres (A : Type) :=
  | Ok (a : A)
  | Raise (e : exn).
Arguments Ok {A} a.
Arguments Raise {A} e.

Definition pybind {A B} (c : pyres A) (k : A -> pyres B) : pyres B :=
  match c with
  | Ok a => k a
  | Raise e => Raise e
  end.

Declare Scope py_scope.
Delimit Scope py_scope with py.
Notation "x <- c ;; k" := (pybind c (fun x => k))
  (at level 100, c at next level, k at level 200, right associativity)
  : py_scope.
Open Scope py_scope.

(** [assert cond, msg] *)
Definition py_assert (b : bool) (m : assert_msg) : pyres unit :=
  if b then Ok tt else Raise (AssertionError m).

(** [[f(x) for x in xs]] where [f] may raise: the comprehension evaluates
    left to right and stops at the first exception. *)
Fixpoint py_mapM {A B} (f : A -> pyres B) (xs : list A) : pyres (list B) :=
  match xs with
  | [] => Ok []
  | x :: xs' => y <- f x ;; ys <- py_mapM f xs' ;; Ok (y :: ys)
  end.

(** ** Python lists *)

(** [len(l)] *)
Definition py_len {A} (l : list A) : Z := Z.of_nat (length l).
Arguments py_len : simpl never.

(** Python's index normalisation: [l[i]] for [-len(l) <= i < len(l)],
    negative indices counting from the end. *)
Definition py_norm_index {A} (l : list A) (i : Z) : option nat :=
  if (0 <=? i)%Z then
    (if (i <? py_len l)%Z then Some (Z.to_nat i) else None)
  else if (- py_len l <=? i)%Z then Some (Z.to_nat (py_len l + i))
  else None.

(** [l[i]]: [IndexError] out of range. *)
Definition py_getitem {A} (l : list A) (i : Z) : pyres A :=
  match py_norm_index l i ≫= (fun n => l !! n) with
  | Some x => Ok x
  | None => Raise IndexError
  end.

(** [l[i] = x], in place: [IndexError] out of range (no growth). *)
Definition py_setitem {A} (l : list A) (i : Z) (x : A) : pyres (list A) :=
  match py_norm_index l i with
  | Some n => Ok (<[n:=x]> l)
  | None => Raise IndexError
  end.

(** [range(n)] *)
Definition py_range (n : Z) : list Z := Z.of_nat <$> seq 0 (Z.to_nat n).

(** [x in l]: the list is scanned with [==]. *)
Definition py_in {A} `{EqDecision A} (x : A) (l : list A) : bool :=
  existsb (fun y => bool_decide (y = x)) l.

(** ** Lemmas on the Python fragments *)

Lemma pybind_Ok {A B} (a : A) (k : A -> pyres B) : pybind (Ok a) k = k a.
Proof. reflexivity. Qed.

Lemma pybind_Raise {A B} e (k : A -> pyres B) : pybind (Raise e) k = Raise e.
Proof. reflexivity. Qed.

Lemma pybind_Ok_inv {A B} (c : pyres A) (k : A -> pyres B) b :
  pybind c k = Ok b -> exists a, c = Ok a /\ k a = Ok b.
Proof. destruct c; simpl; [eauto | discriminate]. Qed.

Lemma pybind_assoc {A B C} (c : pyres A) (f : A -> pyres B) (k : B -> pyres C) :
  pybind (pybind c f) k = pybind c (fun x => pybind (f x) k).
Proof. destruct c; reflexivity. Qed.

Lemma pybind_Ok_r {A} (c : pyres A) : pybind c Ok = c.
Proof. destruct c; reflexivity. Qed.

Lemma py_assert_true m : py_assert true m = Ok tt.
Proof. reflexivity. Qed.

Lemma py_assert_false m : py_assert false m = Raise (AssertionError m).
Proof. reflexivity. Qed.

Lemma py_len_nonneg {A} (l : list A) : (0 <= py_len l)%Z.
Proof. unfold py_len. lia. Qed.

(** Non-negative indices are plain list lookups. *)
Lemma py_getitem_nat {A} (l : list A) (n : nat) :
  py_getitem l (Z.of_nat n) =
  match l !! n with Some x => Ok x | None => Raise IndexError end.
Proof.
  unfold py_getitem, py_norm_index, py_len.
  destruct (Z.leb_spec 0 (Z.of_nat n)); [|lia].
  destruct (Z.ltb_spec (Z.of_nat n) (Z.of_nat (length l))) as [Hlt|Hge].
  - simpl. now rewrite Nat2Z.id.
  - simpl. rewrite lookup_ge_None_2; [reflexivity | lia].
Qed.

Lemma py_norm_index_len {A B} (xs : list A) (ys : list B) (i : Z) :
  length xs = length ys -> py_norm_index xs i = py_norm_index ys i.
Proof. intros H. unfold py_norm_index, py_len. now rewrite H. Qed.

(** Indexing two lists related pointwise: both raise, or both return
    related elements. *)
Lemma py_getitem_Forall2 {A B} (R : A -> B -> Prop) (xs : list A) (ys : list B) (i : Z) :
  Forall2 R xs ys ->
  match py_getitem xs i, py_getitem ys i with
  | Ok x, Ok y => R x y
  | Raise e, Raise e' => e = e'
  | _, _ => False
  end.
Proof.
  intros H. unfold py_getitem.
  rewrite (py_norm_index_len xs ys i (Forall2_length H)).
  destruct (py_norm_index ys i) as [n|]; simpl; [|reflexivity].
  pose proof (proj1 (Forall2_lookup R xs ys) H n) as Hn.
  destruct Hn; simpl; auto.
Qed.

Lemma py_getitem_Ok_index {A} (xs : list A) (i : Z) x :
  py_getitem xs i = Ok x -> exists n, py_norm_index xs i = Some n /\ xs !! n = Some x.
Proof.
  unfold py_getitem. destruct (py_norm_index xs i) as [n|]; simpl; [|discriminate].
  destruct (xs !! n) eqn:E; [|discriminate]. intros [= <-]. eauto.
Qed.

Lemma py_setitem_index {A} (xs : list A) (i : Z) (n : nat) y :
  py_norm_index xs i = Some n -> py_setitem xs i y = Ok (<[n := y]> xs).
Proof. intros H. unfold py_setitem. now rewrite H. Qed.

Lemma py_getitem_0 {A} (x : A) (l : list A) : py_getitem (x :: l) 0 = Ok x.
Proof. exact (py_getitem_nat (x :: l) 0). Qed.

Lemma py_getitem_1 {A} (x y : A) (l : list A) : py_getitem (x :: y :: l) 1 = Ok y.
Proof. exact (py_getitem_nat (x :: y :: l) 1). Qed.

Lemma py_getitem_nil {A} (i : Z) : py_getitem (@nil A) i = Raise IndexError.
Proof.
  unfold py_getitem. now destruct (py_norm_index [] i).
Qed.

Lemma py_getitem_single_1 {A} (x : A) : py_getitem [x] 1 = Raise IndexError.
Proof. reflexivity. Qed.

Lemma py_getitem_lookup {A} (l : list A) (i : Z) x :
  (0 <= i)%Z -> l !! Z.to_nat i = Some x -> py_getitem l i = Ok x.
Proof.
  intros Hi Hl. rewrite <- (Z2Nat.id i) by lia.
  rewrite py_getitem_nat, Hl. reflexivity.
Qed.

Lemma py_getitem_ge {A} (l : list A) (i : Z) :
  (py_len l <= i)%Z -> py_getitem l i = Raise IndexError.
Proof.
  intros Hi. pose proof (py_len_nonneg l).
  rewrite <- (Z2Nat.id i) by lia. rewrite py_getitem_nat.
  unfold py_len in Hi. rewrite lookup_ge_None_2; [reflexivity | lia].
Qed.

Lemma py_getitem_Ok_inv {A} (l : list A) (i : Z) x :
  (0 <= i)%Z -> py_getitem l i = Ok x -> l !! Z.to_nat i = Some x.
Proof.
  intros Hi. rewrite <- (Z2Nat.id i) at 1 by lia. rewrite py_getitem_nat.
  destruct (l !! Z.to_nat i); congruence.
Qed.

Lemma py_setitem_nat {A} (l : list A) (n : nat) (x : A) :
  py_setitem l (Z.of_nat n) x =
  if decide (n < length l) then Ok (<[n:=x]> l) else Raise IndexError.
Proof.
  unfold py_setitem, py_norm_index, py_len.
  destruct (Z.leb_spec 0 (Z.of_nat n)); [|lia].
  destruct (Z.ltb_spec (Z.of_nat n) (Z.of_nat (length l))); simpl;
    case_decide; try lia; rewrite ?Nat2Z.id; reflexivity.
Qed.

Lemma py_getitem_pos {A} (l : list A) (i : Z) :
  (0 <= i)%Z ->
  py_getitem l i = match l !! Z.to_nat i with Some x => Ok x | None => Raise IndexError end.
Proof. intros Hi. rewrite <- py_getitem_nat. now rewrite Z2Nat.id. Qed.

Lemma py_setitem_pos {A} (l : list A) (i : Z) (x : A) :
  (0 <= i)%Z ->
  py_setitem l i x =
  if decide (Z.to_nat i < length l) then Ok (<[Z.to_nat i:=x]> l) else Raise IndexError.
Proof. intros Hi. rewrite <- py_setitem_nat. now rewrite Z2Nat.id. Qed.

Lemma py_getitem_in_range {A} (l : list A) (i : Z) :
  (0 <= i < py_len l)%Z ->
  exists x, l !! Z.to_nat i = Some x /\ py_getitem l i = Ok x.
Proof.
  intros Hi. unfold py_len in Hi.
  destruct (lookup_lt_is_Some_2 l (Z.to_nat i)) as [x Hx]; [lia|].
  exists x. split; [exact Hx|]. rewrite py_getitem_pos, Hx by lia. reflexivity.
Qed.

Lemma py_range_of_nat (n : nat) : py_range (Z.of_nat n) = Z.of_nat <$> seq 0 n.
Proof. unfold py_range. now rewrite Nat2Z.id. Qed.

Lemma py_range_S (n : nat) :
  py_range (Z.of_nat (S n)) = py_range (Z.of_nat n) ++ [Z.of_nat n].
Proof.
  rewrite !py_range_of_nat, seq_S, fmap_app. reflexivity.
Qed.

Lemma py_range_elem (n i : Z) : i ∈ py_range n <-> (0 <= i < n)%Z.
Proof.
  unfold py_range. rewrite list_elem_of_fmap. split.
  - intros (k & -> & Hk). apply elem_of_seq in Hk. lia.
  - intros Hi. exists (Z.to_nat i). split; [lia|]. apply elem_of_seq. lia.
Qed.

(** [range(len(l))] read back through [l[i]] gives [l]. *)
Lemma py_range_lookup_total {A} `{Inhabited A} (l : list A) :
  (fun i => l !!! Z.to_nat i) <$> py_range (py_len l) = l.
Proof.
  unfold py_range, py_len. rewrite Nat2Z.id, <- list_fmap_compose.
  apply list_eq. intros i. rewrite list_lookup_fmap.
  destruct (decide (i < length l)) as [Hi|Hi].
  - rewrite lookup_seq_lt by exact Hi. simpl. rewrite Nat2Z.id.
    symmetry. apply list_lookup_lookup_total_lt. exact Hi.
  - rewrite lookup_seq_ge, lookup_ge_None_2 by lia. reflexivity.
Qed.

Lemma py_range_split (n m : nat) :
  py_range (Z.of_nat (n + m)) = py_range (Z.of_nat n) ++ (Z.of_nat <$> seq n m).
Proof. rewrite !py_range_of_nat, seq_app, fmap_app. reflexivity. Qed.

Lemma py_in_spec {A} `{EqDecision A} (x : A) (l : list A) :
  py_in x l = true <-> x ∈ l.
Proof.
  unfold py_in. rewrite existsb_exists, list_elem_of_In.
  split.
  - intros (y & Hy & Heq). apply bool_decide_eq_true in Heq. now subst.
  - intros Hx. exists x. split; [exact Hx | now apply bool_decide_eq_true].
Qed.

Lemma py_in_false {A} `{EqDecision A} (x : A) (l : list A) :
  py_in x l = false <-> x ∉ l.
Proof.
  rewrite <- py_in_spec. destruct (py_in x l); split; congruence || easy.
Qed.

(** A comprehension whose body succeeds everywhere is a [map]. *)
Lemma py_mapM_Ok {A B} (f : A -> pyres B) (g : A -> B) (xs : list A) :
  (forall x, x ∈ xs -> f x = Ok (g x)) -> py_mapM f xs = Ok (map g xs).
Proof.
  induction xs as [|x xs IH]; intros Hf; simpl; [reflexivity|].
  rewrite Hf by constructor. simpl.
  rewrite IH by (intros y Hy; apply Hf; now constructor). reflexivity.
Qed.

Lemma py_mapM_ext {A B} (f g : A -> pyres B) (xs : list A) :
  (forall x, f x = g x) -> py_mapM f xs = py_mapM g xs.
Proof. intros H. induction xs as [|x xs IH]; simpl; [reflexivity|]. now rewrite H, IH. Qed.

Lemma py_mapM_app {A B} (f : A -> pyres B) (xs ys : list A) :
  py_mapM f (xs ++ ys) =
  (us <- py_mapM f xs ;; vs <- py_mapM f ys ;; Ok (us ++ vs)).
Proof.
  induction xs as [|x xs IH]; simpl.
  - destruct (py_mapM f ys); reflexivity.
  - destruct (f x); simpl; [|reflexivity].
    rewrite IH. destruct (py_mapM f xs); simpl; [|reflexivity].
    destruct (py_mapM f ys); reflexivity.
Qed.

(** [[l[i] for i in range(n)]] for [n <= len(l)] is the prefix of [l]. *)
Lemma py_mapM_getitem_range {A} (l : list A) (n : nat) :
  (n <= length l)%nat -> py_mapM (py_getitem l) (py_range (Z.of_nat n)) = Ok (take n l).
Proof.
  induction n as [|n IH]; intros Hn; [reflexivity|].
  destruct (lookup_lt_is_Some_2 l n) as [x Hx]; [lia|].
  rewrite py_range_S, py_mapM_app, IH by lia. simpl.
  rewrite py_getitem_nat, Hx. simpl. rewrite (take_S_r _ _ x Hx). reflexivity.
Qed.

(** Keys of the results of a partial map: when each result names the
    element it came from, distinct elements give distinct keys. *)
Lemma NoDup_omap_key {A B} (f : A -> option B) (k : B -> A) (l : list A) :
  (forall x y, f x = Some y -> k y = x) -> NoDup l -> NoDup (k <$> omap f l).
Proof.
  intros Hk. induction 1 as [|x l Hx Hnd IH]; [constructor|]. simpl.
  destruct (f x) as [y|] eqn:Hf; [|exact IH]. rewrite fmap_cons.
  constructor; [|exact IH]. rewrite (Hk x y Hf).
  intros (y' & Hy' & Hin)%list_elem_of_fmap. apply list_elem_of_omap in Hin as (x' & Hx' & Hf').
  apply Hx. rewrite Hy', (Hk x' y' Hf'). exact Hx'.
Qed.

(** ** Automation *)

(** Decompose a successful run [x <- c ;; k = Ok b] into its steps. *)
Ltac py_inv H :=
  repeat match type of H with
  | pybind _ _ = Ok _ =>
      let a := fresh "a" in let Ha := fresh "Hstep" in
      apply pybind_Ok_inv in H as (a & Ha & H)
  end.

Create HintDb py discriminated.
Create Rewrite HintDb pyrw.
#[export] Hint Rewrite @pybind_Ok @pybind_Raise py_assert_true py_assert_false
  : pyrw.
#[export] Hint Rewrite @py_getitem_0 @py_getitem_1 @py_getitem_nil @py_getitem_single_1
  : pyrw.
#[export] Hint Resolve py_len_nonneg : py.


(** Turn the boolean tests of the code into the propositions they decide. *)
Ltac py_bool :=
  repeat match goal with
  | H : (_ <=? _)%Z = true |- _ => apply Z.leb_le in H
  | H : (_ <=? _)%Z = false |- _ => apply Z.leb_gt in H
  | H : (_ <? _)%Z = true |- _ => apply Z.ltb_lt in H
  | H : (_ <? _)%Z = false |- _ => apply Z.ltb_ge in H
  | H : (_ && _)%bool = true |- _ => apply andb_prop in H as [? ?]
  | H : bool_decide _ = true |- _ => apply bool_decide_eq_true in H
  | H : bool_decide _ = false |- _ => apply bool_decide_eq_false in H
  end.

(** Reduce a run of the model: rewrite binds, tests and indexing. *)
Ltac py_run := autorewrite with pyrw in *; simpl in *.
