(* ===== verification/Store.v ===== *)
(** * The cell-store interface and runs of writes

    What the board promises its callers, stated once as an interface: a
    store of cells addressed by [pos = [column, row]] with a read
    ([get_cell]), a write ([set_cell]) and a representation invariant,
    and the laws relating them on the 81 positions of the board.  Its
    abstract specification is a finite map ([gmap]) from positions to
    what a read answers there.

    The client is [run_sets], a caller's sequence of [set_cell] calls made
    one after the other.  Its theorem, proved here against the interface
    only, is a refinement: the run succeeds and the abstract board at its
    end is the abstract board at its start updated by the writes in
    order, the last write to a position winning.  [Board.v] and [Heap.v]
    implement the interface with their [get_cell] and [set_cell]. *)

From Stdlib Require Import ZArith Lia.
From stdpp Require Import base list option gmap.
From S2P Require Import Prelude.

Module Store.

Local Open Scope Z_scope.

(** The operations a board offers to a caller. *)
Class CellStore (S : Type) := {
  store_get : S -> list Z -> pyres (option Z);
  store_set : S -> list Z -> option Z -> pyres S;
  store_ok : S -> Prop
}.

(** A column and a row of the 9x9 board. *)
Definition in_board (c r : Z) : Prop := 1 <= c <= 9 /\ 1 <= r <= 9.

(** What a board promises: reads and writes at positions of the board
    succeed on a store in its invariant, the invariant is kept, a read
    returns the last value written there, and a write changes no read at
    any other position. *)
Class CellStoreLaws (S : Type) `{CellStore S} := {
  store_get_total s c r :
    store_ok s -> in_board c r -> exists x, store_get s [c; r] = Ok x;
  store_set_total s c r v :
    store_ok s -> in_board c r -> 1 <= v <= 9 ->
    exists s', store_set s [c; r] (Some v) = Ok s';
  store_set_ok s pos x s' :
    store_ok s -> store_set s pos x = Ok s' -> store_ok s';
  store_get_set_same s c r x s' :
    store_ok s -> store_set s [c; r] x = Ok s' -> store_get s' [c; r] = Ok x;
  store_get_set_other s c r x s' c' r' :
    store_ok s -> store_set s [c; r] x = Ok s' -> (c', r') <> (c, r) ->
    store_get s' [c'; r'] = store_get s [c'; r']
}.

(** A caller's write [board.set_cell([c, r], v)]. *)
Abbreviation write := (Z * Z * Z)%type.

(** The writes made in order; the first exception stops the run. *)
Fixpoint run_sets {S} `{CellStore S} (s : S) (ws : list write) : pyres S :=
  match ws with
  | [] => Ok s
  | (c, r, v) :: ws' => s' <- store_set s [c; r] (Some v) ;; run_sets s' ws'
  end.

(** The 81 positions, row by row. *)
Definition positions : list (Z * Z) :=
  py_range 9 ≫= (fun r => (fun c => (c + 1, r + 1)) <$> py_range 9).

(** The abstract board: at each position, what a read answers there. *)
Definition abs_of {S} `{CellStore S} (s : S) : gmap (Z * Z) (pyres (option Z)) :=
  list_to_map ((fun p => (p, store_get s [p.1; p.2])) <$> positions).

(** A write on the abstract board, and a run of writes. *)
Definition abs_write (m : gmap (Z * Z) (pyres (option Z))) (w : write) :=
  let '(c, r, v) := w in <[(c, r) := Ok (Some v)]> m.

(** The position a write is made at. *)
Definition write_pos (w : write) : Z * Z := let '(c, r, _) := w in (c, r).

Definition abs_run (m : gmap (Z * Z) (pyres (option Z))) (ws : list write) :=
  foldl abs_write m ws.

(** The digit a run writes last at a position, if it writes there. *)
Definition last_write (ws : list write) (p : Z * Z) : option Z :=
  (fun w => w.2) <$> last (filter (fun w => write_pos w = p) ws).

(** A write the board accepts: a position of the board and a digit. *)
Definition write_ok (w : write) : Prop :=
  let '(c, r, v) := w in in_board c r /\ 1 <= v <= 9.

(** ** Lemmas *)

Lemma positions_elem c r : (c, r) ∈ positions <-> in_board c r.
Proof.
  unfold positions, in_board. rewrite list_elem_of_bind. split.
  - intros (r0 & Hc & Hr). apply list_elem_of_fmap in Hc as (c0 & [= -> ->] & Hc).
    apply py_range_elem in Hc, Hr. lia.
  - intros [Hc Hr]. exists (r - 1). split; [|apply py_range_elem; lia].
    apply list_elem_of_fmap. exists (c - 1). split; [f_equal; lia | apply py_range_elem; lia].
Qed.

Lemma positions_NoDup : NoDup positions.
Proof. apply (bool_decide_unpack _). vm_compute. exact I. Qed.

(** The abstract board after a run: the last write wins. *)
Lemma abs_run_lookup m ws p :
  abs_run m ws !! p =
  match last_write ws p with Some v => Some (Ok (Some v)) | None => m !! p end.
Proof.
  unfold abs_run, last_write. induction ws as [|[[c r] v] ws IH] using rev_ind; [reflexivity|].
  rewrite foldl_app, filter_app, filter_cons, filter_nil. cbn [foldl abs_write].
  case_decide as Hp; simpl in Hp.
  - rewrite last_snoc, <- Hp. apply lookup_insert_eq.
  - rewrite app_nil_r, lookup_insert_ne by congruence. exact IH.
Qed.

(** A run of writes leaves the positions it does not write unchanged ... *)
Lemma abs_run_lookup_notin m ws p :
  p ∉ write_pos <$> ws -> abs_run m ws !! p = m !! p.
Proof.
  unfold abs_run. revert m. induction ws as [|[[c r] v] ws IH]; intros m Hp; [reflexivity|].
  rewrite fmap_cons, not_elem_of_cons in Hp. destruct Hp as [Hne Hp].
  cbn [foldl]. rewrite IH by exact Hp. apply lookup_insert_ne. simpl in Hne. congruence.
Qed.

(** ... and, when it writes each position at most once, holds at a
    written position the value written there. *)
Lemma abs_run_lookup_in m ws c r v :
  NoDup (write_pos <$> ws) -> (c, r, v) ∈ ws -> abs_run m ws !! (c, r) = Some (Ok (Some v)).
Proof.
  revert m. induction ws as [|w ws IH]; intros m Hnd Hin; [inversion Hin|].
  rewrite fmap_cons in Hnd. apply list.NoDup_cons in Hnd as [Hn Hnd].
  apply elem_of_cons in Hin as [<-|Hin]; [|exact (IH _ Hnd Hin)].
  change (abs_run (abs_write m (c, r, v)) ws !! (c, r) = Some (Ok (Some v))).
  rewrite abs_run_lookup_notin by exact Hn. apply lookup_insert_eq.
Qed.

(** The digit a run writes last at a position it writes once, and at a
    position it does not write. *)
Lemma last_write_notin ws p : p ∉ write_pos <$> ws -> last_write ws p = None.
Proof.
  intros Hp. pose proof (abs_run_lookup ∅ ws p) as E.
  rewrite abs_run_lookup_notin, lookup_empty in E by exact Hp.
  destruct (last_write ws p); [discriminate | reflexivity].
Qed.

Lemma last_write_in ws c r v :
  NoDup (write_pos <$> ws) -> (c, r, v) ∈ ws -> last_write ws (c, r) = Some v.
Proof.
  intros Hnd Hin. pose proof (abs_run_lookup ∅ ws (c, r)) as E.
  rewrite (abs_run_lookup_in _ _ c r v Hnd Hin), lookup_empty in E.
  destruct (last_write ws (c, r)); congruence.
Qed.

Section Client.

Context {S : Type} `{CellStoreLaws S}.

Lemma abs_of_lookup s c r :
  abs_of s !! (c, r) =
  if decide (in_board c r) then Some (store_get s [c; r]) else None.
Proof.
  unfold abs_of.
  assert (Hkeys : ((fun p => (p, store_get s [p.1; p.2])) <$> positions).*1 = positions).
  { rewrite <- list_fmap_compose. apply list_fmap_id. }
  case_decide as Hin.
  - apply elem_of_list_to_map_1; [rewrite Hkeys; exact positions_NoDup|].
    apply list_elem_of_fmap. exists (c, r). split; [reflexivity|].
    now apply positions_elem.
  - apply not_elem_of_list_to_map_1. rewrite Hkeys. now rewrite positions_elem.
Qed.

(** One accepted write moves the abstract board by [abs_write]. *)
Lemma abs_of_set s c r v s' :
  store_ok s -> in_board c r -> store_set s [c; r] (Some v) = Ok s' ->
  abs_of s' = abs_write (abs_of s) (c, r, v).
Proof.
  intros Hok Hin Hset. apply map_eq. intros [c' r']. cbn [abs_write].
  rewrite !abs_of_lookup. destruct (decide ((c', r') = (c, r))) as [E|E].
  - injection E as -> ->. rewrite lookup_insert_eq, decide_True by exact Hin.
    now rewrite (store_get_set_same s c r _ s' Hok Hset).
  - rewrite lookup_insert_ne by congruence. rewrite abs_of_lookup.
    case_decide; [|reflexivity]. now rewrite (store_get_set_other s c r _ s' c' r' Hok Hset E).
Qed.

(** Refinement of a run of writes against the abstract board. *)
Lemma run_sets_abs s ws :
  store_ok s -> Forall write_ok ws ->
  exists s', run_sets s ws = Ok s' /\ store_ok s' /\ abs_of s' = abs_run (abs_of s) ws.
Proof.
  revert s. induction ws as [|[[c r] v] ws IH]; intros s Hok Hws.
  - exists s. auto.
  - apply Forall_cons_iff in Hws as [[Hin Hv] Hws].
    destruct (store_set_total s c r v Hok Hin Hv) as [s1 Hs1].
    pose proof (store_set_ok s _ _ s1 Hok Hs1) as Hok1.
    destruct (IH s1 Hok1 Hws) as (s' & Hrun & Hok' & Habs).
    exists s'. cbn [run_sets]. rewrite Hs1. cbn [pybind]. split; [exact Hrun|].
    split; [exact Hok'|]. rewrite Habs, (abs_of_set s c r v s1 Hok Hin Hs1). unfold abs_run. cbn [foldl]. reflexivity.
Qed.

(** The client theorem: a run of accepted writes succeeds, keeps the
    invariant, and every read answers the last digit written there, or
    what it answered before the run. *)
Lemma run_sets_get s ws :
  store_ok s -> Forall write_ok ws ->
  exists s', run_sets s ws = Ok s' /\ store_ok s' /\
    forall c r, in_board c r ->
      store_get s' [c; r] =
      match last_write ws (c, r) with Some v => Ok (Some v) | None => store_get s [c; r] end.
Proof.
  intros Hok Hws. destruct (run_sets_abs s ws Hok Hws) as (s' & Hrun & Hok' & Habs).
  exists s'. split; [exact Hrun|]. split; [exact Hok'|]. intros c r Hin.
  pose proof (f_equal (lookup (c, r)) Habs) as E.
  rewrite abs_run_lookup, !abs_of_lookup, decide_True in E by exact Hin.
  destruct (last_write ws (c, r)); rewrite ?decide_True in E by exact Hin; congruence.
Qed.

End Client.

End Store.
