(* ===== verification/Board.v ===== *)
(** * The [Sudoku] class: its state and its accessors

    Models [class Sudoku] of [src/my_sudoku.py] (lines 5-50): the board
    state ([self.numbers]), the constructor, [get_cell], [set_cell],
    [get_sudoku] and [set_sudoku]; [validate] is in [Validate.v].  The
    grid is a list of rows, each a list of cells [int | None].  Every
    method is a function on the state returning a [pyres]: the assertion
    and indexing failures of the code are values of [exn].

    In this file the rows are values: a write to a row is a write to that
    row of the grid and nowhere else, which is what the code does when the
    rows are distinct list objects (the constructor's default grid is one).
    Row objects shared between several slots of [self.numbers] are the
    subject of [Heap.v]. *)

From Stdlib Require Import ZArith Lia.
From stdpp Require Import base list option.
From S2P Require Import Prelude.

Module Board.

Local Open Scope Z_scope.

(** [int | None] *)
Abbreviation cell := (option Z).
(** [list[list[int | None]]] *)
Abbreviation grid := (list (list cell)).

(** The object's only attribute, [self.numbers]. *)
Record Sudoku := mkSudoku { numbers : grid }.

(** [[[None for j in range(9)] for i in range(9)]] (line 12) *)
Definition empty_numbers : grid :=
  (fun _ => (fun _ => None) <$> py_range 9) <$> py_range 9.

(** [if not numbers:] on the argument [numbers: list | None]: [None] and
    the empty list are false. *)
Definition py_not_numbers (numbers : option grid) : bool :=
  match numbers with
  | Some (_ :: _) => false
  | _ => true
  end.

(** [Sudoku.__init__] (lines 6-13). *)
Definition init (numbers : option grid) : Sudoku :=
  let numbers :=
    if py_not_numbers numbers then empty_numbers
    else default [] numbers in
  mkSudoku numbers.

(** The chained comparison [lo <= x <= hi]: [hi] is evaluated only when
    [lo <= x] holds. *)
Definition py_between (lo x : Z) (hi : pyres Z) : pyres bool :=
  if (lo <=? x)%Z then (h <- hi ;; Ok (x <=? h)%Z) else Ok false.

Arguments py_between : simpl never.

(** [assert 1 <= pos[0] <= len(self.numbers[0]), ...] (lines 21 and 39) *)
Definition assert_column_pos (s : Sudoku) (pos : list Z) : pyres unit :=
  c <- py_getitem pos 0 ;;
  b <- py_between 1 c (row0 <- py_getitem (numbers s) 0 ;; Ok (py_len row0)) ;;
  py_assert b (ColumnPositionInvalid c).

(** [assert 1 <= pos[1] <= len(self.numbers), ...] (lines 22 and 40) *)
Definition assert_row_pos (s : Sudoku) (pos : list Z) : pyres unit :=
  r <- py_getitem pos 1 ;;
  b <- py_between 1 r (Ok (py_len (numbers s))) ;;
  py_assert b (RowPositionInvalid r).

(** [Sudoku.get_cell] (lines 15-23). *)
Definition get_cell (s : Sudoku) (pos : list Z) : pyres cell :=
  _ <- assert_column_pos s pos ;;
  _ <- assert_row_pos s pos ;;
  r <- py_getitem pos 1 ;;
  row <- py_getitem (numbers s) (r - 1) ;;
  c <- py_getitem pos 0 ;;
  py_getitem row (c - 1).

(** [Sudoku.get_sudoku] (lines 25-30): the live grid. *)
Definition get_sudoku (s : Sudoku) : grid := numbers s.

(** [assert 1 <= value <= 9 or value is None, ...] (line 41).  The chained
    comparison is evaluated first: [1 <= None] raises [TypeError], so the
    [value is None] alternative is never reached for [None]. *)
Definition assert_value (value : cell) : pyres unit :=
  b <- match value with
       | None => Raise TypeError
       | Some v => py_between 1 v (Ok 9)
       end ;;
  py_assert (b || bool_decide (value = None)) (NewValueInvalid value).

(** [Sudoku.set_cell] (lines 32-42): the row [self.numbers[pos[1] - 1]] is
    updated at index [pos[0] - 1]. *)
Definition set_cell (s : Sudoku) (pos : list Z) (value : cell) : pyres Sudoku :=
  _ <- assert_column_pos s pos ;;
  _ <- assert_row_pos s pos ;;
  _ <- assert_value value ;;
  r <- py_getitem pos 1 ;;
  row <- py_getitem (numbers s) (r - 1) ;;
  c <- py_getitem pos 0 ;;
  row' <- py_setitem row (c - 1) value ;;
  numbers' <- py_setitem (numbers s) (r - 1) row' ;;
  Ok (mkSudoku numbers').

(** [Sudoku.set_sudoku] (lines 44-50): no check of shape or values. *)
Definition set_sudoku (s : Sudoku) (numbers : grid) : Sudoku := mkSudoku numbers.


(** ** Reading the grid by coordinates *)

(** The cell at column [c], row [r], both counted from 1, when it exists. *)
Definition cell_at (g : grid) (c r : Z) : option cell :=
  match g !! Z.to_nat (r - 1) with
  | Some row => row !! Z.to_nat (c - 1)
  | None => None
  end.

(** The grid with the cell at column [c], row [r] replaced by [x], when
    that cell exists. *)
Definition grid_set (g : grid) (c r : Z) (x : cell) : option grid :=
  match g !! Z.to_nat (r - 1) with
  | Some row =>
      if decide (Z.to_nat (c - 1) < length row)%nat
      then Some (<[Z.to_nat (r - 1) := <[Z.to_nat (c - 1) := x]> row]> g)
      else None
  | None => None
  end.

(** The values a cell may take: [None] or a digit. *)
Definition cell_ok (x : cell) : Prop :=
  match x with
  | None => True
  | Some v => 1 <= v <= 9
  end.

#[export] Instance cell_ok_dec x : Decision (cell_ok x).
Proof. destruct x; simpl; apply _. Defined.

(** The documented shape of [self.numbers]: 9 rows of 9 cells. *)
Definition shape9 (g : grid) : Prop :=
  length g = 9%nat /\ Forall (fun row => length row = 9%nat) g.

(** The documented board: 9x9 and every cell [None] or in [1..9]. *)
Definition wf_grid (g : grid) : Prop :=
  shape9 g /\ Forall (Forall cell_ok) g.

#[export] Instance shape9_dec g : Decision (shape9 g).
Proof. unfold shape9. apply _. Defined.
#[export] Instance wf_grid_dec g : Decision (wf_grid g).
Proof. unfold wf_grid. apply _. Defined.

(** The guards depend on the grid only through [len(self.numbers[0])]
    and [len(self.numbers)]. *)
Definition same_dims (g g' : grid) : Prop :=
  length g = length g' /\ fmap length (head g) = fmap length (head g').

#[export] Instance same_dims_equiv : Equivalence same_dims.
Proof.
  split.
  - intros g. split; reflexivity.
  - intros g g' [H1 H2]. split; symmetry; assumption.
  - intros g g' g'' [H1 H2] [H3 H4]. split; etransitivity; eassumption.
Qed.

(** A grid with one row of nine digits and eight rows of one cell. *)
Definition ragged_numbers : grid :=
  ((fun _ => Some 1) <$> py_range 9) :: ((fun _ => [None]) <$> py_range 8).

(** ** The guards *)

Lemma py_between_true lo x h : lo <= x <= h -> py_between lo x (Ok h) = Ok true.
Proof.
  intros [H1 H2]. unfold py_between.
  destruct (Z.leb_spec lo x); [|lia]. simpl. now apply Z.leb_le in H2 as ->.
Qed.

Lemma py_between_below lo x hi : x < lo -> py_between lo x hi = Ok false.
Proof. intros H. unfold py_between. destruct (Z.leb_spec lo x); [lia|reflexivity]. Qed.

Lemma py_between_above lo x h : h < x -> py_between lo x (Ok h) = Ok false.
Proof.
  intros H. unfold py_between. destruct (Z.leb_spec lo x); [|reflexivity].
  simpl. destruct (Z.leb_spec x h); [lia|reflexivity].
Qed.

Lemma assert_column_pos_ok row0 rows c r rest :
  1 <= c <= py_len row0 ->
  assert_column_pos (mkSudoku (row0 :: rows)) (c :: r :: rest) = Ok tt.
Proof.
  intros Hc. unfold assert_column_pos. py_run.
  rewrite (py_between_true 1 c (py_len row0)) by lia. reflexivity.
Qed.

Lemma assert_column_pos_fail s c r rest :
  (c < 1 \/ exists row0 rows, numbers s = row0 :: rows /\ py_len row0 < c) ->
  assert_column_pos s (c :: r :: rest) =
  Raise (AssertionError (ColumnPositionInvalid c)).
Proof.
  intros [Hc | (row0 & rows & Hs & Hc)]; unfold assert_column_pos; py_run.
  - now rewrite py_between_below.
  - rewrite Hs. py_run. destruct (Z.leb_spec 1 c).
    + unfold py_between. destruct (Z.leb_spec 1 c); [|lia]. simpl.
      destruct (Z.leb_spec c (py_len row0)); [lia|reflexivity].
    + now rewrite py_between_below.
Qed.

Lemma assert_row_pos_ok s c r rest :
  1 <= r <= py_len (numbers s) -> assert_row_pos s (c :: r :: rest) = Ok tt.
Proof.
  intros Hr. unfold assert_row_pos. py_run.
  rewrite (py_between_true 1 r) by lia. reflexivity.
Qed.

Lemma assert_row_pos_fail s c r rest :
  r < 1 \/ py_len (numbers s) < r ->
  assert_row_pos s (c :: r :: rest) = Raise (AssertionError (RowPositionInvalid r)).
Proof.
  intros Hr. unfold assert_row_pos. py_run.
  destruct Hr; [rewrite py_between_below | rewrite py_between_above]; auto.
Qed.

Lemma assert_value_ok v : 1 <= v <= 9 -> assert_value (Some v) = Ok tt.
Proof. intros Hv. unfold assert_value. simpl. now rewrite py_between_true. Qed.

Lemma assert_value_fail v :
  ~ (1 <= v <= 9) -> assert_value (Some v) = Raise (AssertionError (NewValueInvalid (Some v))).
Proof.
  intros Hv. unfold assert_value. simpl.
  destruct (Z.leb_spec 1 v).
  - rewrite py_between_above by lia. reflexivity.
  - rewrite py_between_below by lia. reflexivity.
Qed.

Lemma assert_value_Ok_inv x : assert_value x = Ok tt -> exists v, x = Some v /\ 1 <= v <= 9.
Proof.
  destruct x as [v|]; [|discriminate]. intros H. exists v. split; [reflexivity|].
  destruct (decide (1 <= v <= 9)) as [|Hv]; [assumption|].
  now rewrite assert_value_fail in H.
Qed.

Lemma assert_column_pos_Ok_inv s c r rest :
  assert_column_pos s (c :: r :: rest) = Ok tt ->
  exists row0 rows, numbers s = row0 :: rows /\ 1 <= c <= py_len row0.
Proof.
  unfold assert_column_pos. py_run. unfold py_between.
  destruct (Z.leb_spec 1 c); [|discriminate].
  destruct (numbers s) as [|row0 rows]; py_run; [discriminate|].
  destruct (Z.leb_spec c (py_len row0)); [|discriminate]. eauto with lia.
Qed.

Lemma assert_row_pos_Ok_inv s c r rest :
  assert_row_pos s (c :: r :: rest) = Ok tt -> 1 <= r <= py_len (numbers s).
Proof.
  unfold assert_row_pos. py_run. unfold py_between.
  destruct (Z.leb_spec 1 r); [|discriminate]. simpl.
  destruct (Z.leb_spec r (py_len (numbers s))); [lia|discriminate].
Qed.

Lemma assert_column_pos_dims s s' pos :
  same_dims (numbers s) (numbers s') -> assert_column_pos s pos = assert_column_pos s' pos.
Proof.
  intros [_ Hh]. unfold assert_column_pos.
  destruct (numbers s) as [|a g], (numbers s') as [|a' g']; simpl in Hh;
    try discriminate; [reflexivity|].
  injection Hh as Hh. py_run. unfold py_len. now rewrite Hh.
Qed.

Lemma assert_row_pos_dims s s' pos :
  same_dims (numbers s) (numbers s') -> assert_row_pos s pos = assert_row_pos s' pos.
Proof. intros [Hl _]. unfold assert_row_pos, py_len. now rewrite Hl. Qed.

(** Once the guards pass, [get_cell] reads [cell_at]. *)
Lemma get_cell_eq s c r rest :
  get_cell s (c :: r :: rest) =
  (_ <- assert_column_pos s (c :: r :: rest) ;;
   _ <- assert_row_pos s (c :: r :: rest) ;;
   match cell_at (numbers s) c r with Some x => Ok x | None => Raise IndexError end).
Proof.
  unfold get_cell.
  destruct (assert_column_pos s _) as [[]|] eqn:Hc; [simpl|reflexivity].
  destruct (assert_row_pos s _) as [[]|] eqn:Hr; [simpl|reflexivity].
  apply assert_column_pos_Ok_inv in Hc as (row0 & rows & Hs & Hc).
  apply assert_row_pos_Ok_inv in Hr.
  py_run. destruct (py_getitem_in_range (numbers s) (r - 1)) as (row & Hrow & ->);
    [lia|]. simpl. unfold cell_at. rewrite Hrow, py_getitem_pos by lia.
  reflexivity.
Qed.

(** Once the guards pass, [set_cell] performs [grid_set]. *)
Lemma set_cell_eq s c r rest x :
  set_cell s (c :: r :: rest) x =
  (_ <- assert_column_pos s (c :: r :: rest) ;;
   _ <- assert_row_pos s (c :: r :: rest) ;;
   _ <- assert_value x ;;
   match grid_set (numbers s) c r x with
   | Some g' => Ok (mkSudoku g')
   | None => Raise IndexError
   end).
Proof.
  unfold set_cell.
  destruct (assert_column_pos s _) as [[]|] eqn:Hc; [simpl|reflexivity].
  destruct (assert_row_pos s _) as [[]|] eqn:Hr; [simpl|reflexivity].
  destruct (assert_value x) as [[]|]; [simpl|reflexivity].
  apply assert_column_pos_Ok_inv in Hc as (row0 & rows & Hs & Hc).
  apply assert_row_pos_Ok_inv in Hr.
  py_run. destruct (py_getitem_in_range (numbers s) (r - 1)) as (row & Hrow & ->);
    [lia|]. simpl. unfold grid_set. rewrite Hrow, py_setitem_pos by lia.
  case_decide; [simpl|reflexivity].
  rewrite py_setitem_pos by lia. unfold py_len in Hr.
  rewrite decide_True by lia. reflexivity.
Qed.

Lemma set_cell_Ok_inv s pos x s' :
  set_cell s pos x = Ok s' ->
  exists c r rest v, pos = c :: r :: rest /\ x = Some v /\ 1 <= v <= 9 /\
    1 <= c /\ 1 <= r /\ grid_set (numbers s) c r x = Some (numbers s').
Proof.
  intros H. destruct pos as [|c [|r rest]].
  - discriminate.
  - unfold set_cell in H. py_inv H. destruct a. unfold assert_row_pos in Hstep0.
    py_run. discriminate.
  - rewrite set_cell_eq in H. py_inv H. destruct a, a0, a1.
    apply assert_column_pos_Ok_inv in Hstep as (row0 & rows & _ & Hc).
    apply assert_row_pos_Ok_inv in Hstep0.
    apply assert_value_Ok_inv in Hstep1 as (v & -> & Hv).
    destruct (grid_set _ _ _ _) as [g'|] eqn:Hg; [|discriminate].
    injection H as <-. exists c, r, rest, v. simpl. repeat split; auto; lia.
Qed.

(** ** [grid_set] and [cell_at] *)

Lemma grid_set_dims g c r x g' : grid_set g c r x = Some g' -> same_dims g g'.
Proof.
  unfold grid_set. destruct (g !! _) as [row|] eqn:Hrow; [|discriminate].
  case_decide; [|discriminate]. intros [= <-]. split.
  - now rewrite length_insert.
  - destruct g as [|row0 g]; [reflexivity|].
    destruct (Z.to_nat (r - 1)) as [|k] eqn:Hk; simpl; [|reflexivity].
    simpl in Hrow. injection Hrow as ->. now rewrite length_insert.
Qed.

Lemma cell_at_grid_set g c r x g' c' r' :
  grid_set g c r x = Some g' -> 1 <= c -> 1 <= r -> 1 <= c' -> 1 <= r' ->
  cell_at g' c' r' = if decide ((c', r') = (c, r)) then Some x else cell_at g c' r'.
Proof.
  unfold grid_set, cell_at. intros Hset Hc Hr Hc' Hr'.
  destruct (g !! _) as [row|] eqn:Hrow; [|discriminate].
  case_decide as Hlt; [|discriminate]. injection Hset as <-.
  destruct (decide (r' = r)) as [->|Hne].
  - rewrite list_lookup_insert_eq by (eapply lookup_lt_Some; eauto).
    rewrite Hrow. destruct (decide (c' = c)) as [->|Hne'].
    + rewrite decide_True by reflexivity. now apply list_lookup_insert_eq.
    + rewrite decide_False by congruence. apply list_lookup_insert_ne. lia.
  - rewrite decide_False by congruence. rewrite list_lookup_insert_ne by lia.
    reflexivity.
Qed.

Lemma grid_set_Forall (P : list cell -> Prop) (Q : cell -> Prop) g c r x g' :
  grid_set g c r x = Some g' ->
  (forall row, P row -> Q x -> Forall Q row -> P (<[Z.to_nat (c - 1) := x]> row)) ->
  Forall (fun row => P row /\ Forall Q row) g -> Q x ->
  Forall (fun row => P row /\ Forall Q row) g'.
Proof.
  unfold grid_set. intros Hset HP Hg Hx.
  destruct (g !! _) as [row|] eqn:Hrow; [|discriminate].
  case_decide; [|discriminate]. injection Hset as <-.
  apply Forall_insert; [exact Hg|].
  pose proof (proj1 (Forall_lookup _ _) Hg _ _ Hrow) as [HProw HQrow].
  split; [now apply HP|]. now apply Forall_insert.
Qed.

(** ** Boards of the documented shape *)

Lemma shape9_cons g : shape9 g -> exists row0 rows, g = row0 :: rows /\ py_len row0 = 9.
Proof.
  intros [Hl Hrows]. destruct g as [|row0 rows]; [discriminate|].
  inversion Hrows as [|? ? Hrow0 _]; subst. exists row0, rows.
  split; [reflexivity|]. unfold py_len. now rewrite Hrow0.
Qed.

Lemma shape9_column_ok g c r rest :
  shape9 g -> 1 <= c <= 9 -> assert_column_pos (mkSudoku g) (c :: r :: rest) = Ok tt.
Proof.
  intros Hg Hc. destruct (shape9_cons g Hg) as (row0 & rows & -> & H0).
  apply assert_column_pos_ok. lia.
Qed.

Lemma shape9_row_ok g c r rest :
  shape9 g -> 1 <= r <= 9 -> assert_row_pos (mkSudoku g) (c :: r :: rest) = Ok tt.
Proof.
  intros [Hl _] Hr. apply assert_row_pos_ok. simpl. unfold py_len. rewrite Hl. lia.
Qed.

Lemma shape9_guards g c r rest :
  shape9 g -> 1 <= c <= 9 -> 1 <= r <= 9 ->
  assert_column_pos (mkSudoku g) (c :: r :: rest) = Ok tt /\
  assert_row_pos (mkSudoku g) (c :: r :: rest) = Ok tt.
Proof. intros Hg Hc Hr. split; [apply shape9_column_ok | apply shape9_row_ok]; assumption. Qed.

Lemma shape9_row g r :
  shape9 g -> 1 <= r <= 9 ->
  exists row, g !! Z.to_nat (r - 1) = Some row /\ length row = 9%nat.
Proof.
  intros [Hl Hrows] Hr.
  destruct (lookup_lt_is_Some_2 g (Z.to_nat (r - 1))) as [row Hrow]; [lia|].
  exists row. split; [exact Hrow|]. exact (proj1 (Forall_lookup _ _) Hrows _ _ Hrow).
Qed.

Lemma cell_at_shape9 g c r :
  shape9 g -> 1 <= c <= 9 -> 1 <= r <= 9 -> exists x, cell_at g c r = Some x.
Proof.
  intros Hg Hc Hr. destruct (shape9_row g r Hg Hr) as (row & Hrow & Hlen).
  unfold cell_at. rewrite Hrow. apply lookup_lt_is_Some_2. lia.
Qed.

Lemma grid_set_shape9 g c r x :
  shape9 g -> 1 <= c <= 9 -> 1 <= r <= 9 -> exists g', grid_set g c r x = Some g'.
Proof.
  intros Hg Hc Hr. destruct (shape9_row g r Hg Hr) as (row & Hrow & Hlen).
  unfold grid_set. rewrite Hrow, decide_True by lia. eauto.
Qed.

Lemma grid_set_preserves_wf g c r x g' :
  grid_set g c r x = Some g' -> cell_ok x -> wf_grid g -> wf_grid g'.
Proof.
  intros Hset Hx [[Hl Hrows] Hcells].
  assert (Hboth : Forall (fun row => length row = 9%nat /\ Forall cell_ok row) g').
  { apply (grid_set_Forall (fun row => length row = 9%nat) cell_ok g c r x g' Hset);
      [intros row Hrow _ _; now rewrite length_insert | | exact Hx].
    apply Forall_and; assumption. }
  apply Forall_and_inv in Hboth as [Hrows' Hcells'].
  split; [split|exact Hcells'].
  - destruct (grid_set_dims g c r x g' Hset) as [Hd _]. lia.
  - exact Hrows'.
Qed.

Lemma get_cell_Ok_guards s c r rest x :
  get_cell s (c :: r :: rest) = Ok x -> 1 <= c /\ 1 <= r.
Proof.
  rewrite get_cell_eq. intros H. py_inv H. destruct a, a0.
  apply assert_column_pos_Ok_inv in Hstep as (? & ? & _ & Hc).
  apply assert_row_pos_Ok_inv in Hstep0. lia.
Qed.

(** [get_cell] at a position answers the same on two grids with the same
    dimensions and the same cell there. *)
Lemma get_cell_ext s s' c r rest :
  same_dims (numbers s) (numbers s') ->
  (1 <= c -> 1 <= r -> cell_at (numbers s) c r = cell_at (numbers s') c r) ->
  get_cell s (c :: r :: rest) = get_cell s' (c :: r :: rest).
Proof.
  intros Hd Hcell. rewrite !get_cell_eq, (assert_column_pos_dims s s'),
    (assert_row_pos_dims s s') by exact Hd.
  destruct (assert_column_pos s' _) as [[]|] eqn:Hc; [simpl|reflexivity].
  destruct (assert_row_pos s' _) as [[]|] eqn:Hr; [simpl|reflexivity].
  apply assert_column_pos_Ok_inv in Hc as (? & ? & _ & Hc).
  apply assert_row_pos_Ok_inv in Hr. rewrite Hcell by lia. reflexivity.
Qed.

(** [get_cell] with fewer than two coordinates fails the same way on two
    grids with the same dimensions. *)
Lemma get_cell_short_dims s s' pos :
  same_dims (numbers s) (numbers s') -> (length pos < 2)%nat ->
  get_cell s pos = get_cell s' pos.
Proof.
  intros Hd Hlen. destruct pos as [|c [|r rest]]; simpl in Hlen; try lia;
    [reflexivity|].
  unfold get_cell. rewrite (assert_column_pos_dims s s') by exact Hd.
  unfold assert_row_pos. py_run. reflexivity.
Qed.

Lemma empty_numbers_wf : wf_grid empty_numbers.
Proof. split; [split; [reflexivity | repeat constructor] | repeat constructor]. Qed.

(** The cells of a well-formed grid are [None] or digits. *)
Lemma cell_at_wf g c r x : wf_grid g -> cell_at g c r = Some x -> cell_ok x.
Proof.
  intros [_ Hcells]. unfold cell_at. destruct (g !! _) as [row|] eqn:Hrow; [|discriminate].
  intros Hx. exact (Forall_lookup_1 _ _ _ _ (Forall_lookup_1 _ _ _ _ Hcells Hrow) Hx).
Qed.

(** [get_cell] reads only the first two coordinates of [pos]. *)
Lemma get_cell_rest s c r rest rest' :
  get_cell s (c :: r :: rest) = get_cell s (c :: r :: rest').
Proof. rewrite !get_cell_eq. unfold assert_column_pos, assert_row_pos. py_run. reflexivity. Qed.

(** [get_cell] at a position of a 9x9 board reads [cell_at]. *)
Lemma get_cell_shape9 g c r rest :
  shape9 g -> 1 <= c <= 9 -> 1 <= r <= 9 ->
  exists x, cell_at g c r = Some x /\ get_cell (mkSudoku g) (c :: r :: rest) = Ok x.
Proof.
  intros Hg Hc Hr. destruct (shape9_guards g c r rest Hg Hc Hr) as [H1 H2].
  destruct (cell_at_shape9 g c r Hg Hc Hr) as [x Hx].
  exists x. split; [exact Hx|]. rewrite get_cell_eq, H1, H2. simpl. now rewrite Hx.
Qed.

(** Every cell of the default grid reads [None]. *)
Lemma empty_numbers_get_cell c r :
  1 <= c <= 9 -> 1 <= r <= 9 -> get_cell (mkSudoku empty_numbers) [c; r] = Ok None.
Proof.
  intros Hc Hr.
  destruct (get_cell_shape9 empty_numbers c r [] (proj1 empty_numbers_wf) Hc Hr) as (x & Hx & ->).
  unfold cell_at, empty_numbers in Hx. rewrite list_lookup_fmap in Hx.
  destruct (py_range 9 !! _) eqn:E; [|discriminate]. simpl in Hx.
  assert (x = None) as ->; [|reflexivity].
  eapply (Forall_lookup_1 (fun y => y = None)); [|exact Hx]. repeat constructor.
Qed.

(** [set_cell] of a digit at a position of a 9x9 board performs [grid_set]. *)
Lemma set_cell_shape9 g c r rest v :
  shape9 g -> 1 <= c <= 9 -> 1 <= r <= 9 -> 1 <= v <= 9 ->
  exists g', grid_set g c r (Some v) = Some g' /\
             set_cell (mkSudoku g) (c :: r :: rest) (Some v) = Ok (mkSudoku g').
Proof.
  intros Hg Hc Hr Hv. destruct (shape9_guards g c r rest Hg Hc Hr) as [H1 H2].
  destruct (grid_set_shape9 g c r (Some v) Hg Hc Hr) as [g' Hset].
  exists g'. split; [exact Hset|].
  rewrite set_cell_eq, H1, H2, assert_value_ok by lia. simpl. now rewrite Hset.
Qed.

(** After a successful [set_cell], [get_cell] at that position reads the
    value written, on any board. *)
Lemma set_cell_get_same s c r rest x s' :
  set_cell s (c :: r :: rest) x = Ok s' -> get_cell s' (c :: r :: rest) = Ok x.
Proof.
  intros Hset. pose proof Hset as Hset'. rewrite set_cell_eq in Hset'. py_inv Hset'.
  destruct a, a0, a1.
  destruct (set_cell_Ok_inv _ _ _ _ Hset)
    as (c0 & r0 & rest0 & v & [= <- <- <-] & -> & _ & Hc & Hr & Hg).
  pose proof (grid_set_dims _ _ _ _ _ Hg) as Hd. symmetry in Hd.
  rewrite get_cell_eq, (assert_column_pos_dims _ s), (assert_row_pos_dims _ s), Hstep, Hstep0
    by exact Hd.
  simpl. rewrite (cell_at_grid_set _ _ _ _ _ c r Hg) by lia. now rewrite decide_True.
Qed.

(** After a successful [set_cell], [get_cell] at every other position
    answers as before, errors included. *)
Lemma set_cell_get_other s c r rest x s' pos :
  set_cell s (c :: r :: rest) x = Ok s' ->
  (forall c' r' rest', pos = c' :: r' :: rest' -> (c', r') <> (c, r)) ->
  get_cell s' pos = get_cell s pos.
Proof.
  intros Hset Hpos.
  destruct (set_cell_Ok_inv _ _ _ _ Hset)
    as (c0 & r0 & rest0 & v & [= <- <- <-] & -> & Hv & Hc & Hr & Hg).
  pose proof (grid_set_dims _ _ _ _ _ Hg) as Hd. symmetry in Hd.
  destruct (decide (length pos < 2)%nat) as [Hshort|Hlong].
  { now apply get_cell_short_dims. }
  destruct pos as [|c' [|r' rest']]; simpl in Hlong; try lia.
  apply get_cell_ext; [exact Hd|]. intros Hc' Hr'.
  rewrite (cell_at_grid_set _ _ _ _ _ c' r' Hg) by lia.
  rewrite decide_False by (eapply Hpos; reflexivity). reflexivity.
Qed.

(** A successful [set_cell] keeps a well-formed board well formed. *)
Lemma set_cell_wf s pos x s' :
  wf_grid (numbers s) -> set_cell s pos x = Ok s' -> wf_grid (numbers s').
Proof.
  intros Hwf Hset.
  destruct (set_cell_Ok_inv _ _ _ _ Hset)
    as (c & r & rest & v & _ & -> & Hv & _ & _ & Hg).
  exact (grid_set_preserves_wf _ _ _ _ _ Hg Hv Hwf).
Qed.

(** ** Properties of the accessors *)

(** C10: on a 9x9 board, [get_cell] at a column and row in [1..9] returns
    the cell stored at that position (row [r-1], index [c-1]). *)
Theorem get_cell_spec g c r rest :
  shape9 g -> 1 <= c <= 9 -> 1 <= r <= 9 ->
  exists x, cell_at g c r = Some x /\ get_cell (mkSudoku g) (c :: r :: rest) = Ok x.
Proof. exact (get_cell_shape9 g c r rest). Qed.

Lemma get_cell_spec_witness :
  exists x, cell_at empty_numbers 4 7 = Some x /\
            get_cell (mkSudoku empty_numbers) [4; 7] = Ok x.
Proof.
  apply (get_cell_spec empty_numbers 4 7 []); [apply empty_numbers_wf | lia | lia].
Defined.

(** C6: round trip.  On a 9x9 board, [set_cell] with a column and row in
    [1..9] and a digit [v] succeeds, and [get_cell] at the same position
    then returns [v]. *)
Theorem set_cell_get_cell g c r v :
  shape9 g -> 1 <= c <= 9 -> 1 <= r <= 9 -> 1 <= v <= 9 ->
  exists s', set_cell (mkSudoku g) [c; r] (Some v) = Ok s' /\
             get_cell s' [c; r] = Ok (Some v).
Proof.
  intros Hg Hc Hr Hv. destruct (set_cell_shape9 g c r [] v Hg Hc Hr Hv) as (g' & _ & Hset).
  exists (mkSudoku g'). split; [exact Hset | exact (set_cell_get_same _ _ _ _ _ _ Hset)].
Qed.

Lemma set_cell_get_cell_witness :
  exists s', set_cell (mkSudoku empty_numbers) [2; 3] (Some 5) = Ok s' /\
             get_cell s' [2; 3] = Ok (Some 5).
Proof.
  apply (set_cell_get_cell empty_numbers 2 3 5);
    [apply empty_numbers_wf | lia | lia | lia].
Defined.

(** C8: invariant.  A successful [set_cell] keeps a well-formed board
    (9x9, every cell [None] or in [1..9]) well formed. *)
Theorem set_cell_preserves_wf s pos x s' :
  wf_grid (numbers s) -> set_cell s pos x = Ok s' -> wf_grid (numbers s').
Proof. exact (set_cell_wf s pos x s'). Qed.

Lemma set_cell_preserves_wf_witness :
  wf_grid empty_numbers /\
  set_cell (mkSudoku empty_numbers) [9; 9] (Some 9) =
    Ok (mkSudoku (<[8%nat := <[8%nat := Some 9]> ((fun _ => None) <$> py_range 9)]> empty_numbers)) /\
  wf_grid (<[8%nat := <[8%nat := Some 9]> ((fun _ => None) <$> py_range 9)]> empty_numbers).
Proof.
  split; [apply empty_numbers_wf|]. split; [vm_compute; reflexivity|].
  apply (set_cell_preserves_wf (mkSudoku empty_numbers) [9; 9] (Some 9)
           (mkSudoku (<[8%nat := <[8%nat := Some 9]> ((fun _ => None) <$> py_range 9)]> empty_numbers)));
    [apply empty_numbers_wf | vm_compute; reflexivity].
Defined.

(** C9: [set_cell] with the value [None] at a valid position of a 9x9
    board raises [TypeError]: the chained comparison [1 <= value <= 9] is
    evaluated before [value is None], and [1 <= None] is a type error in
    Python 3, although the docstring lists [None] as a valid value. *)
Theorem set_cell_none_raises g c r rest :
  shape9 g -> 1 <= c <= 9 -> 1 <= r <= 9 ->
  set_cell (mkSudoku g) (c :: r :: rest) None = Raise TypeError.
Proof.
  intros Hg Hc Hr. destruct (shape9_guards g c r rest Hg Hc Hr) as [H1 H2].
  rewrite set_cell_eq, H1, H2. reflexivity.
Qed.

Lemma set_cell_none_raises_witness :
  set_cell (mkSudoku empty_numbers) [1; 1] None = Raise TypeError.
Proof. apply (set_cell_none_raises empty_numbers 1 1 []); [apply empty_numbers_wf | lia | lia]. Defined.

(** C22: no call of [set_cell] with [None] ever returns normally, on any
    board and at any position: a cell, once set, can never be cleared
    through [set_cell]. *)
Theorem set_cell_none_never_ok s pos s' : set_cell s pos None <> Ok s'.
Proof.
  intros Hset. destruct (set_cell_Ok_inv _ _ _ _ Hset) as (? & ? & ? & ? & _ & Hx & _).
  discriminate Hx.
Qed.

(** C13: [set_cell] with an integer outside [1..9] at a valid position
    raises the value assertion, with the value in its message. *)
Theorem set_cell_bad_value g c r rest v :
  shape9 g -> 1 <= c <= 9 -> 1 <= r <= 9 -> ~ (1 <= v <= 9) ->
  set_cell (mkSudoku g) (c :: r :: rest) (Some v) =
  Raise (AssertionError (NewValueInvalid (Some v))).
Proof.
  intros Hg Hc Hr Hv. destruct (shape9_guards g c r rest Hg Hc Hr) as [H1 H2].
  rewrite set_cell_eq, H1, H2, assert_value_fail by exact Hv. reflexivity.
Qed.

Lemma set_cell_bad_value_witness :
  set_cell (mkSudoku empty_numbers) [1; 1] (Some 10) =
  Raise (AssertionError (NewValueInvalid (Some 10))).
Proof.
  apply (set_cell_bad_value empty_numbers 1 1 [] 10);
    [apply empty_numbers_wf | lia | lia | lia].
Defined.

Lemma shape9_column_fail g c r rest :
  shape9 g -> ~ (1 <= c <= 9) ->
  assert_column_pos (mkSudoku g) (c :: r :: rest) =
  Raise (AssertionError (ColumnPositionInvalid c)).
Proof.
  intros Hg Hc. destruct (shape9_cons g Hg) as (row0 & rows & -> & H0).
  apply assert_column_pos_fail.
  destruct (Z.lt_ge_cases c 1); [now left | right; exists row0, rows; split; [reflexivity | lia]].
Qed.

Lemma shape9_row_fail g c r rest :
  shape9 g -> ~ (1 <= r <= 9) ->
  assert_row_pos (mkSudoku g) (c :: r :: rest) =
  Raise (AssertionError (RowPositionInvalid r)).
Proof.
  intros [Hl _] Hr. apply assert_row_pos_fail. simpl. unfold py_len. rewrite Hl. lia.
Qed.

(** C11: on a 9x9 board, [get_cell] at a column outside [1..9] fails the
    column assertion; at a valid column and a row outside [1..9] it fails
    the row assertion.  The column is checked first. *)
Theorem get_cell_out_of_range g c r rest :
  shape9 g ->
  (~ (1 <= c <= 9) ->
   get_cell (mkSudoku g) (c :: r :: rest) = Raise (AssertionError (ColumnPositionInvalid c))) /\
  (1 <= c <= 9 -> ~ (1 <= r <= 9) ->
   get_cell (mkSudoku g) (c :: r :: rest) = Raise (AssertionError (RowPositionInvalid r))).
Proof.
  intros Hg. split.
  - intros Hc. unfold get_cell. now rewrite shape9_column_fail.
  - intros Hc Hr. unfold get_cell.
    rewrite (shape9_column_ok g c r rest Hg Hc), (shape9_row_fail g c r rest Hg Hr).
    reflexivity.
Qed.

Lemma get_cell_out_of_range_witness :
  get_cell (mkSudoku empty_numbers) [0; 10] = Raise (AssertionError (ColumnPositionInvalid 0)) /\
  get_cell (mkSudoku empty_numbers) [1; 10] = Raise (AssertionError (RowPositionInvalid 10)).
Proof.
  split.
  - apply (proj1 (get_cell_out_of_range empty_numbers 0 10 [] (proj1 empty_numbers_wf))). lia.
  - apply (proj2 (get_cell_out_of_range empty_numbers 1 10 [] (proj1 empty_numbers_wf))); lia.
Defined.

(** C12: on a 9x9 board, [set_cell] at a column outside [1..9] fails the
    column assertion, and at a valid column and a row outside [1..9] the
    row assertion, whatever the value: the position is checked before the
    value and the board is not written. *)
Theorem set_cell_out_of_range g c r rest x :
  shape9 g ->
  (~ (1 <= c <= 9) ->
   set_cell (mkSudoku g) (c :: r :: rest) x = Raise (AssertionError (ColumnPositionInvalid c))) /\
  (1 <= c <= 9 -> ~ (1 <= r <= 9) ->
   set_cell (mkSudoku g) (c :: r :: rest) x = Raise (AssertionError (RowPositionInvalid r))).
Proof.
  intros Hg. split.
  - intros Hc. unfold set_cell. now rewrite shape9_column_fail.
  - intros Hc Hr. unfold set_cell.
    rewrite (shape9_column_ok g c r rest Hg Hc), (shape9_row_fail g c r rest Hg Hr).
    reflexivity.
Qed.

Lemma set_cell_out_of_range_witness :
  set_cell (mkSudoku empty_numbers) [10; 0] None = Raise (AssertionError (ColumnPositionInvalid 10)) /\
  set_cell (mkSudoku empty_numbers) [9; 0] (Some 3) = Raise (AssertionError (RowPositionInvalid 0)).
Proof.
  split.
  - apply (proj1 (set_cell_out_of_range empty_numbers 10 0 [] None (proj1 empty_numbers_wf))). lia.
  - apply (proj2 (set_cell_out_of_range empty_numbers 9 0 [] (Some 3) (proj1 empty_numbers_wf))); lia.
Defined.

(** C14: the constructor.  Without an argument, or with an empty list, it
    builds a well-formed 9x9 board whose every cell reads [None]; any
    other grid is stored as it is, unchecked. *)
Theorem init_default :
  init None = mkSudoku empty_numbers /\ init (Some []) = mkSudoku empty_numbers /\
  wf_grid empty_numbers /\
  (forall c r, 1 <= c <= 9 -> 1 <= r <= 9 -> get_cell (init None) [c; r] = Ok None) /\
  (forall g, g <> [] -> init (Some g) = mkSudoku g).
Proof.
  split; [reflexivity|]. split; [reflexivity|]. split; [exact empty_numbers_wf|].
  split; [exact empty_numbers_get_cell|].
  intros [|row g] Hg; [congruence | reflexivity].
Qed.

Lemma init_default_witness : get_cell (init None) [3; 4] = Ok None.
Proof. apply (proj1 (proj2 (proj2 (proj2 init_default))) 3 4); lia. Defined.

(** C19: [set_sudoku] checks nothing: it stores any grid, which
    [get_sudoku] hands back unchanged, and on a grid whose rows differ in
    length [get_cell] raises [IndexError] at every position that passes
    both assertions (column within the first row, row within the grid)
    but lies beyond the end of its own row. *)
Theorem set_sudoku_unchecked s row0 rows c r row :
  1 <= c <= py_len row0 -> 1 <= r <= py_len (row0 :: rows) ->
  (row0 :: rows) !! Z.to_nat (r - 1) = Some row -> py_len row < c ->
  get_sudoku (set_sudoku s (row0 :: rows)) = row0 :: rows /\
  get_cell (set_sudoku s (row0 :: rows)) [c; r] = Raise IndexError.
Proof.
  intros Hc Hr Hrow Hshort. split; [reflexivity|].
  change (set_sudoku s (row0 :: rows)) with (mkSudoku (row0 :: rows)).
  rewrite get_cell_eq, (assert_column_pos_ok row0 rows c r [] Hc), (assert_row_pos_ok (mkSudoku (row0 :: rows)) c r [] Hr).
  cbn [pybind numbers]. unfold cell_at. rewrite Hrow, lookup_ge_None_2 by (unfold py_len in Hshort; lia).
  reflexivity.
Qed.

Lemma set_sudoku_unchecked_witness :
  get_sudoku (set_sudoku (init None) ragged_numbers) = ragged_numbers /\
  get_cell (set_sudoku (init None) ragged_numbers) [5; 2] = Raise IndexError.
Proof.
  apply (set_sudoku_unchecked (init None) ((fun _ => Some 1) <$> py_range 9)
           ((fun _ => [None]) <$> py_range 8) 5 2 [None]);
    [unfold py_len; simpl; lia | unfold py_len; simpl; lia | reflexivity | unfold py_len; simpl; lia].
Defined.

End Board.
