(* ===== verification/Validate.v ===== *)
(** * [Sudoku.validate]

    Models [validate] of [src/my_sudoku.py] (lines 52-78): the row phase,
    the column phase with its list comprehension, and the box list that the
    method builds before it falls off its end.  The method returns [False]
    ([Some false] here) from inside a loop, or [None] ([None] here) when it
    reaches its end; [Some true] is a value the type allows and the code
    never produces.  The column phase indexes the grid and can raise
    [IndexError]. *)

From Stdlib Require Import ZArith Lia.
From stdpp Require Import base list option.
From S2P Require Import Prelude Board.

Module Validate.

Import Board.
Local Open Scope Z_scope.

(** The inner loop of each phase (lines 59-64 and 69-74):
    [for number in line: if number in seen: return False
                         else: seen.append(number)].
    [true] means the loop ran to its end. *)
Fixpoint scan_line (seen : list cell) (line : list cell) : bool :=
  match line with
  | [] => true
  | number :: line' =>
      if py_in number seen then false
      else scan_line (seen ++ [number]) line'
  end.

(** 1. Validate rows (lines 58-64): [for row in self.numbers:
    numbers_in_row = []; ...]. *)
Fixpoint validate_rows (rows : grid) : bool :=
  match rows with
  | [] => true
  | row :: rows' => if scan_line [] row then validate_rows rows' else false
  end.

(** [column = [self.numbers[col][i] for i in range(len(self.numbers))]]
    (line 67): the comprehension indexes [self.numbers[col]] first. *)
Definition get_column (g : grid) (col : Z) : pyres (list cell) :=
  py_mapM (fun i => row <- py_getitem g col ;; py_getitem row i)
          (py_range (py_len g)).

(** 2. Validate columns (lines 66-74), over the given column indices. *)
Fixpoint validate_columns (g : grid) (cols : list Z) : pyres bool :=
  match cols with
  | [] => Ok true
  | col :: cols' =>
      column <- get_column g col ;;
      if scan_line [] column then validate_columns g cols' else Ok false
  end.

(** 3. Check boxes (lines 76-78): the list literal the method builds. *)
Definition boxes : list (list (Z * Z)) :=
  [[(1, 1); (2, 1); (3, 1);
    (1, 2); (2, 2); (3, 2);
    (1, 3); (2, 3); (3, 3)]].

(** [Sudoku.validate] (lines 52-78).  [Some false] is [return False];
    [None] is the implicit [return None] after the box list is built. *)
Definition validate (s : Sudoku) : pyres (option bool) :=
  if validate_rows (numbers s) then
    row0 <- py_getitem (numbers s) 0 ;;
    ok <- validate_columns (numbers s) (py_range (py_len row0)) ;;
    if ok then (let _ := boxes in Ok None) else Ok (Some false)
  else Ok (Some false).

(** Every row is at least as long as the grid is tall: the comprehension
    of line 67 then never runs off a row. *)
Definition tall_enough (g : grid) : Prop :=
  Forall (fun row => (length g <= length row)%nat) g.

(** Every row is exactly as long as the grid is tall. *)
Definition square (g : grid) : Prop :=
  Forall (fun row => length row = length g) g.

(** The first row of the spec's example: [5, None, ..., None, 5]. *)
Definition row_5_5 : list cell := Some 5 :: replicate 7 None ++ [Some 5].

(** Nine copies of the row [None, 1, ..., 8]: every row holds one empty
    cell and no repeated value. *)
Definition one_empty_rows : grid :=
  (fun _ => None :: (Some <$> [1; 2; 3; 4; 5; 6; 7; 8])) <$> py_range 9.

(** ** The scan loop decides duplicate-freedom *)

(** The loop with the list [seen] of values already met answers whether
    [seen ++ line] has no repeated element. *)
Lemma scan_line_NoDup seen line :
  NoDup seen -> scan_line seen line = bool_decide (NoDup (seen ++ line)).
Proof.
  revert seen. induction line as [|x line IH]; intros seen Hseen; simpl.
  - rewrite app_nil_r. symmetry. now apply bool_decide_eq_true_2.
  - destruct (py_in x seen) eqn:Hin.
    + apply py_in_spec in Hin. symmetry. apply bool_decide_eq_false_2.
      rewrite list.NoDup_app, list.NoDup_cons. intros (_ & Hdisj & _).
      apply (Hdisj x Hin). now left.
    + apply py_in_false in Hin.
      rewrite IH, <- app_assoc by (apply list.NoDup_app; repeat split;
        [exact Hseen | intros y Hy Hy'; apply list_elem_of_singleton in Hy'; subst; contradiction
        | apply NoDup_singleton]).
      reflexivity.
Qed.

Lemma validate_rows_Forall g : validate_rows g = bool_decide (Forall NoDup g).
Proof.
  induction g as [|row g IH]; cbn [validate_rows].
  - symmetry. apply bool_decide_eq_true_2. constructor.
  - rewrite scan_line_NoDup by constructor. rewrite IH.
    destruct (decide (NoDup row)) as [Hr|Hr].
    + rewrite (bool_decide_eq_true_2 _ Hr). apply bool_decide_ext.
      rewrite Forall_cons_iff. tauto.
    + rewrite (bool_decide_eq_false_2 _ Hr). symmetry.
      apply bool_decide_eq_false_2. rewrite Forall_cons_iff. tauto.
Qed.

(** ** The column phase *)

(** The comprehension of line 67 at index [col] reads [self.numbers[col]],
    i.e. ROW [col], up to the height of the grid. *)
Lemma get_column_row g col row :
  0 <= col -> g !! Z.to_nat col = Some row -> (length g <= length row)%nat ->
  get_column g col = Ok (take (length g) row).
Proof.
  intros Hc Hrow Hlen. unfold get_column.
  rewrite (py_getitem_lookup g col row Hc Hrow). cbn [pybind].
  exact (py_mapM_getitem_range row (length g) Hlen).
Qed.

(** Past the last row, [self.numbers[col]] raises. *)
Lemma get_column_oob g col :
  g <> [] -> py_len g <= col -> get_column g col = Raise IndexError.
Proof.
  intros Hg Hc. unfold get_column, py_len.
  destruct (length g) as [|n] eqn:Hlen; [destruct g; simpl in Hlen; congruence|].
  rewrite py_range_of_nat. simpl.
  rewrite py_getitem_ge by (unfold py_len in *; lia). reflexivity.
Qed.

Lemma validate_columns_app g cols1 cols2 :
  validate_columns g (cols1 ++ cols2) =
  (b <- validate_columns g cols1 ;; if b then validate_columns g cols2 else Ok false).
Proof.
  induction cols1 as [|col cols1 IH]; simpl; [reflexivity|].
  destruct (get_column g col); simpl; [|reflexivity].
  destruct (scan_line [] _); [exact IH | reflexivity].
Qed.

(** On a tall enough grid, the column phase over in-range indices is the
    row check of the prefixes of the rows with those indices. *)
Lemma validate_columns_rows g cols :
  tall_enough g -> Forall (fun col => 0 <= col < py_len g) cols ->
  validate_columns g cols =
  Ok (validate_rows ((fun col => take (length g) (g !!! Z.to_nat col)) <$> cols)).
Proof.
  intros Htall. induction cols as [|col cols IH]; intros Hcols; [reflexivity|].
  apply Forall_cons_iff in Hcols as [Hcol Hcols].
  destruct (lookup_lt_is_Some_2 g (Z.to_nat col)) as [row Hrow];
    [unfold py_len in Hcol; lia|].
  cbn [validate_columns fmap list_fmap validate_rows].
  rewrite (get_column_row g col row), (list_lookup_total_correct _ _ _ Hrow);
    [| lia | exact Hrow | exact (Forall_lookup_1 _ _ _ _ Htall Hrow)].
  cbn [pybind]. destruct (scan_line [] _); [exact (IH Hcols) | reflexivity].
Qed.

Lemma square_tall_enough g : square g -> tall_enough g.
Proof. apply Forall_impl. lia. Qed.

(** On a square grid, the column phase of [validate] computes exactly the
    row phase. *)
Lemma validate_columns_square row0 rows :
  square (row0 :: rows) ->
  validate_columns (row0 :: rows) (py_range (py_len row0)) =
  Ok (validate_rows (row0 :: rows)).
Proof.
  intros Hsq. pose proof (Forall_inv Hsq) as H0. simpl in H0.
  assert (Hlen : py_len row0 = py_len (row0 :: rows)) by (unfold py_len; now rewrite H0).
  rewrite Hlen, validate_columns_rows.
  - f_equal. f_equal. rewrite <- (py_range_lookup_total (row0 :: rows)) at 2.
    apply list_fmap_ext. intros i col Hi.
    apply list_elem_of_lookup_2, py_range_elem in Hi. unfold py_len in Hi.
    apply take_ge. apply Nat.eq_le_incl.
    apply (Forall_lookup_1 _ _ (Z.to_nat col) _ Hsq). apply list_lookup_lookup_total_lt. lia.
  - now apply square_tall_enough.
  - apply Forall_forall. intros col Hcol. apply py_range_elem, list_elem_of_In, Hcol.
Qed.

(** On a tall enough grid whose rows have no repeated element, the column
    phase over [range(k)] with [k] at most the height succeeds. *)
Lemma validate_columns_NoDup g (k : nat) :
  tall_enough g -> Forall NoDup g -> (k <= length g)%nat ->
  validate_columns g (py_range (Z.of_nat k)) = Ok true.
Proof.
  intros Htall Hnd Hk. rewrite validate_columns_rows.
  - f_equal. rewrite validate_rows_Forall. apply bool_decide_eq_true_2.
    apply Forall_fmap, Forall_forall. intros col Hcol.
    apply list_elem_of_In, py_range_elem in Hcol. simpl.
    eapply sublist_NoDup; [|apply sublist_take].
    apply (Forall_lookup_1 _ _ (Z.to_nat col) _ Hnd).
    apply list_lookup_lookup_total_lt. lia.
  - exact Htall.
  - apply Forall_forall. intros col Hcol.
    apply list_elem_of_In, py_range_elem in Hcol. unfold py_len. lia.
Qed.

(** ** [validate] *)

(** On a grid with at least one row, all rows at least as long as the grid
    is tall: [validate] returns [False] iff some row repeats a value
    ([None] included); otherwise its column phase re-reads the rows and
    passes, and it returns [None] when the first row is no longer than the
    grid is tall, or raises [IndexError] at column index [len(numbers)]
    when the first row is longer. *)
Lemma validate_tall row0 rows :
  tall_enough (row0 :: rows) ->
  validate (mkSudoku (row0 :: rows)) =
  if bool_decide (Forall NoDup (row0 :: rows)) then
    (if decide (length row0 <= length (row0 :: rows))%nat then Ok None
     else Raise IndexError)
  else Ok (Some false).
Proof.
  intros Htall. unfold validate. cbn [numbers]. rewrite validate_rows_Forall.
  destruct (bool_decide_reflect (Forall NoDup (row0 :: rows))) as [Hnd|Hnd];
    [|reflexivity].
  rewrite py_getitem_0. cbn [pybind]. unfold py_len at 1.
  case_decide as Hle.
  - rewrite validate_columns_NoDup by assumption. reflexivity.
  - replace (length row0)
      with (length (row0 :: rows) + S (length row0 - length (row0 :: rows) - 1))%nat
      by lia.
    rewrite py_range_split, validate_columns_app, validate_columns_NoDup by (auto; lia).
    cbn [pybind seq fmap list_fmap validate_columns].
    rewrite get_column_oob by (unfold py_len; congruence || lia). reflexivity.
Qed.

Lemma shape9_tall g :
  shape9 g -> exists row0 rows, g = row0 :: rows /\ tall_enough g /\
                               length row0 = length g.
Proof.
  intros Hg. pose proof Hg as [Hl Hrows].
  destruct (shape9_cons g Hg) as (row0 & rows & -> & _). exists row0, rows.
  split; [reflexivity|]. split.
  - eapply Forall_impl; [|exact Hrows]. intros row Hr. simpl in *. lia.
  - rewrite Hl. exact (Forall_inv Hrows).
Qed.

(** On a 9x9 board [validate] answers by the row rule alone. *)
Lemma validate_shape9_eq g :
  shape9 g ->
  validate (mkSudoku g) = Ok (if bool_decide (Forall NoDup g) then None else Some false).
Proof.
  intros Hg. destruct (shape9_tall g Hg) as (row0 & rows & -> & Htall & Hlen).
  rewrite validate_tall by exact Htall. rewrite decide_True by lia.
  now destruct (bool_decide _).
Qed.

(** A line without repeated cells holds at most one empty cell. *)
Lemma NoDup_empty_cells line :
  NoDup line -> (length (filter (fun x : cell => x = None) line) <= 1)%nat.
Proof.
  induction line as [|x line IH]; intros Hnd; [simpl; lia|].
  apply list.NoDup_cons in Hnd as [Hx Hnd]. rewrite filter_cons.
  case_decide as Hn; [|exact (IH Hnd)]. subst x. simpl.
  destruct (filter _ line) as [|y l] eqn:E; [simpl; lia|]. exfalso.
  assert (Hy : y ∈ filter (fun x : cell => x = None) line) by (rewrite E; apply elem_of_cons; now left).
  apply list_elem_of_filter in Hy as [-> Hy]. exact (Hx Hy).
Qed.

Lemma concat_empty_cells g :
  Forall NoDup g -> (length (filter (fun x : cell => x = None) (concat g)) <= length g)%nat.
Proof.
  induction 1 as [|row g Hrow _ IH]; [simpl; lia|]. simpl.
  rewrite list.filter_app, length_app. pose proof (NoDup_empty_cells row Hrow). lia.
Qed.

(** Permuting the cells within each row keeps the row rule and the shape. *)
Lemma Forall2_perm_NoDup (g g' : grid) : Forall2 (≡ₚ) g g' -> Forall NoDup g <-> Forall NoDup g'.
Proof.
  induction 1 as [|row row' g g' Hp _ IH]; [split; constructor|].
  rewrite !Forall_cons_iff, Hp, IH. reflexivity.
Qed.

Lemma shape9_perm (g g' : grid) : shape9 g -> Forall2 (≡ₚ) g g' -> shape9 g'.
Proof.
  intros [Hl Hrows] Hp. pose proof Hp as Hlen. apply Forall2_length in Hlen. split; [lia|].
  clear Hl Hlen. induction Hp as [|row row' g g' Hr _ IH]; [constructor|].
  apply Forall_cons_iff in Hrows as [Hrow Hrows]. constructor; [|exact (IH Hrows)].
  rewrite <- Hr. exact Hrow.
Qed.

(** ** Properties of [validate] *)

(** C1: [validate] never returns [True], on any board: it returns [False]
    from inside its loops or falls off its end, returning [None]. *)
Theorem validate_never_true s : validate s <> Ok (Some true).
Proof.
  unfold validate. destruct (validate_rows _); [|discriminate].
  destruct (py_getitem _ 0); [cbn [pybind] | discriminate].
  destruct (validate_columns _ _) as [[]|]; cbn [pybind]; discriminate.
Qed.

(** C2: on a 9x9 board, [validate] returns [False] exactly when some row
    holds a repeated value (two [None] cells count as a repetition), and
    [None] otherwise; it never raises. *)
Theorem validate_shape9 g :
  shape9 g ->
  validate (mkSudoku g) = Ok (if bool_decide (Forall NoDup g) then None else Some false).
Proof. exact (validate_shape9_eq g). Qed.

Lemma validate_shape9_witness :
  validate (mkSudoku empty_numbers) = Ok (Some false).
Proof.
  rewrite (validate_shape9 empty_numbers (proj1 empty_numbers_wf)). vm_compute. reflexivity.
Defined.

(** C3: the scan loop of each phase (a list [seen], [in], [append]) returns
    to its end exactly when the scanned line has no repeated element. *)
Theorem scan_line_correct line : scan_line [] line = bool_decide (NoDup line).
Proof. apply scan_line_NoDup. constructor. Qed.

(** C4: on a square grid, the column phase of [validate] computes exactly
    the row phase: the comprehension [self.numbers[col][i]] reads row [col],
    so the columns are never checked. *)
Theorem validate_columns_reads_rows row0 rows :
  square (row0 :: rows) ->
  validate_columns (row0 :: rows) (py_range (py_len row0)) =
  Ok (validate_rows (row0 :: rows)).
Proof. apply validate_columns_square. Qed.

Lemma validate_columns_reads_rows_witness :
  validate_columns [[Some 1; Some 2]; [Some 1; Some 2]] (py_range (py_len [Some 1; Some 2])) =
  Ok (validate_rows [[Some 1; Some 2]; [Some 1; Some 2]]).
Proof. apply (validate_columns_reads_rows [Some 1; Some 2] [[Some 1; Some 2]]). repeat constructor. Defined.

(** C5: [validate] passes a 9x9 board only when the board holds at most
    nine empty cells, at most one per row: the scan counts [None] as a
    value, so every board in play with ten or more empty cells, the
    empty board the constructor builds among them, is rejected. *)
Theorem validate_none_few_empty g :
  shape9 g -> validate (mkSudoku g) = Ok None ->
  (length (filter (fun x : cell => x = None) (concat g)) <= 9)%nat.
Proof.
  intros Hg. rewrite validate_shape9_eq by exact Hg.
  case_bool_decide as Hnd; [|discriminate]. intros _.
  destruct Hg as [Hl _]. rewrite <- Hl. exact (concat_empty_cells g Hnd).
Qed.

Lemma validate_none_few_empty_witness :
  (length (filter (fun x : cell => x = None) (concat one_empty_rows)) <= 9)%nat.
Proof.
  apply validate_none_few_empty; [split; [reflexivity | repeat constructor] | vm_compute; reflexivity].
Defined.

(** C16: [validate] cannot see columns or boxes: on a 9x9 board,
    permuting the cells within each row, which can create or remove any
    column or box conflict, never changes its answer. *)
Theorem validate_permute_rows g g' :
  shape9 g -> Forall2 (≡ₚ) g g' -> validate (mkSudoku g') = validate (mkSudoku g).
Proof.
  intros Hg Hp. rewrite (validate_shape9_eq g Hg), (validate_shape9_eq g' (shape9_perm g g' Hg Hp)).
  rewrite (bool_decide_ext _ _ (Forall2_perm_NoDup g g' Hp)). reflexivity.
Qed.

Lemma validate_permute_rows_witness :
  validate (mkSudoku (reverse <$> one_empty_rows)) = validate (mkSudoku one_empty_rows).
Proof.
  apply validate_permute_rows; [split; [reflexivity | repeat constructor]|].
  apply Forall2_fmap_r, Forall_Forall2_diag, Forall_forall. intros row _. cbn beta.
  unfold compose. rewrite reverse_Permutation. reflexivity.
Defined.

(** C15: on a 9x9 board, two cells of one row holding the same value make
    [validate] return [False]. *)
Theorem validate_row_duplicate g r row i j x :
  shape9 g -> g !! r = Some row -> row !! i = Some x -> row !! j = Some x -> i <> j ->
  validate (mkSudoku g) = Ok (Some false).
Proof.
  intros Hg Hrow Hi Hj Hij. destruct (shape9_tall g Hg) as (row0 & rows & -> & Htall & _).
  rewrite validate_tall by exact Htall. rewrite bool_decide_eq_false_2; [reflexivity|].
  intros Hnd. apply Hij. apply (Forall_lookup_1 _ _ _ _ Hnd) in Hrow.
  exact (proj1 (NoDup_alt row) Hrow i j x Hi Hj).
Qed.

Lemma validate_row_duplicate_witness :
  validate (mkSudoku (<[0%nat := row_5_5]> empty_numbers)) = Ok (Some false).
Proof.
  apply (validate_row_duplicate _ 0 row_5_5 0 8 (Some 5));
    [split; [reflexivity | repeat constructor] | reflexivity | reflexivity | reflexivity | lia].
Defined.

(** C17: on a grid wider than it is tall whose rows have no repeated
    cell, [validate] passes the row phase and its column phase raises
    [IndexError] at column index [len(self.numbers)]. *)
Theorem validate_wide_grid row0 rows :
  tall_enough (row0 :: rows) -> Forall NoDup (row0 :: rows) ->
  (length (row0 :: rows) < length row0)%nat ->
  validate (mkSudoku (row0 :: rows)) = Raise IndexError.
Proof.
  intros Htall Hnd Hwide. rewrite validate_tall by exact Htall.
  rewrite bool_decide_eq_true_2 by exact Hnd. rewrite decide_False by lia.
  reflexivity.
Qed.

Lemma validate_wide_grid_witness :
  validate (mkSudoku [[Some 1; Some 2]]) = Raise IndexError.
Proof.
  apply validate_wide_grid;
    [apply (bool_decide_unpack _); vm_compute; exact I
    | apply (bool_decide_unpack _); vm_compute; exact I
    | simpl; lia].
Defined.

End Validate.
