(* ===== verification/Rules.v ===== *)
(** * The rules of sudoku and what [validate] decides of them

    The abstract specification of a valid board, as the documentation of
    [validate] ("valid according to sudoku rules") and the spec state it:
    no digit occurs twice in a row, a column or a 3x3 box, empty cells
    ignored.  The theorems compare [Validate.validate] with this contract:
    on 9x9 boards it decides the row rule only, with empty cells counted
    as repeated values, and it never answers [True]. *)

From Stdlib Require Import ZArith Lia.
From stdpp Require Import base list option.
From S2P Require Import Prelude Board Validate.

Module Rules.

Import Board Validate.
Local Open Scope Z_scope.

(** The digits present in a line, empty cells skipped. *)
Fixpoint present (line : list cell) : list Z :=
  match line with
  | [] => []
  | None :: line' => present line'
  | Some v :: line' => v :: present line'
  end.

(** A line obeys the rules when no digit occurs twice in it. *)
Definition line_ok (line : list cell) : Prop := NoDup (present line).

(** Row [r], column [c] and box [b] of a grid, all counted from 0; boxes
    are numbered left to right, top to bottom. *)
Definition row_of (g : grid) (r : nat) : list cell := g !!! r.
Definition col_of (g : grid) (c : nat) : list cell := (fun row => row !!! c) <$> g.
Definition box_of (g : grid) (b : nat) : list cell :=
  (fun k => (g !!! (3 * (b / 3) + k / 3)%nat) !!! (3 * (b mod 3) + k mod 3)%nat)
    <$> seq 0 9.

(** The nine rows, nine columns and nine boxes. *)
Definition lines (g : grid) : list (list cell) :=
  (row_of g <$> seq 0 9) ++ (col_of g <$> seq 0 9) ++ (box_of g <$> seq 0 9).

(** The contract: a 9x9 board of empty cells and digits is valid when
    every row, column and box obeys the rules. *)
Definition sudoku_valid (g : grid) : Prop := Forall line_ok (lines g).

(** The row rule alone. *)
Definition rows_ok (g : grid) : Prop := Forall line_ok g.

#[export] Instance line_ok_dec line : Decision (line_ok line).
Proof. unfold line_ok. apply _. Defined.
#[export] Instance sudoku_valid_dec g : Decision (sudoku_valid g).
Proof. unfold sudoku_valid. apply _. Defined.
#[export] Instance rows_ok_dec g : Decision (rows_ok g).
Proof. unfold rows_ok. apply _. Defined.

(** Test boards. *)

(** The digits 1 to 9 in order. *)
Definition digits_row : list cell := Some <$> [1; 2; 3; 4; 5; 6; 7; 8; 9].

(** Nine copies of [digits_row]: every column repeats one digit. *)
Definition repeated_rows : grid := (fun _ => digits_row) <$> py_range 9.

(** ** Lemmas *)

Lemma present_elem v line : v ∈ present line <-> Some v ∈ line.
Proof.
  induction line as [|[w|] line IH]; simpl.
  - split; intros H; inversion H.
  - rewrite !elem_of_cons, IH. split; intros [H|H]; auto; [left; now subst | left; congruence].
  - rewrite elem_of_cons, IH. split; [auto|]. intros [H|H]; [discriminate | exact H].
Qed.

(** A line without repeated cells has no repeated digit. *)
Lemma NoDup_present line : NoDup line -> line_ok line.
Proof.
  unfold line_ok. induction line as [|[v|] line IH]; intros Hnd; simpl.
  - constructor.
  - apply list.NoDup_cons in Hnd as [Hv Hnd]. constructor; [|now apply IH].
    rewrite present_elem. exact Hv.
  - apply IH. now apply list.NoDup_cons in Hnd as [_ Hnd].
Qed.

(** On a line with no empty cell, the two notions agree. *)
Lemma present_NoDup line : Forall is_Some line -> line_ok line -> NoDup line.
Proof.
  unfold line_ok. induction line as [|x line IH]; intros Hfull Hok; [constructor|].
  apply Forall_cons_iff in Hfull as [[v ->] Hfull]. simpl in Hok.
  apply list.NoDup_cons in Hok as [Hv Hok]. constructor.
  - rewrite <- present_elem. exact Hv.
  - exact (IH Hfull Hok).
Qed.

Lemma Forall_NoDup_rows_ok g : Forall NoDup g -> rows_ok g.
Proof. intros H. eapply Forall_impl; [|exact H]. exact NoDup_present. Qed.

(** [validate] on a 9x9 board, by whether the rows repeat a cell. *)
Lemma validate_shape9_cases g :
  shape9 g ->
  (Forall NoDup g /\ validate (mkSudoku g) = Ok None) \/
  (~ Forall NoDup g /\ validate (mkSudoku g) = Ok (Some false)).
Proof.
  intros Hg. destruct (shape9_tall g Hg) as (row0 & rows & -> & Htall & Hlen).
  rewrite validate_tall by exact Htall. rewrite decide_True by lia.
  destruct (bool_decide_reflect (Forall NoDup (row0 :: rows))); [left | right]; auto.
Qed.

(** ** [validate] against the rules *)

(** C18: refinement of the row rule.  On a 9x9 board, the answer [None]
    from [validate] implies that no row repeats a digit, and a row that
    repeats a digit makes [validate] answer [False]. *)
Theorem validate_refines_row_rule g :
  shape9 g ->
  (validate (mkSudoku g) = Ok None -> rows_ok g) /\
  (~ rows_ok g -> validate (mkSudoku g) = Ok (Some false)).
Proof.
  intros Hg. destruct (validate_shape9_cases g Hg) as [[Hnd ->] | [Hnd ->]].
  - split; [intros _; now apply Forall_NoDup_rows_ok|].
    intros Hrows. exfalso. apply Hrows. now apply Forall_NoDup_rows_ok.
  - split; [discriminate | reflexivity].
Qed.

Lemma validate_refines_row_rule_witness :
  (validate (mkSudoku (<[0%nat := row_5_5]> empty_numbers)) = Ok None ->
   rows_ok (<[0%nat := row_5_5]> empty_numbers)) /\
  (~ rows_ok (<[0%nat := row_5_5]> empty_numbers) ->
   validate (mkSudoku (<[0%nat := row_5_5]> empty_numbers)) = Ok (Some false)).
Proof.
  apply validate_refines_row_rule. split; [reflexivity | repeat constructor].
Defined.

(** C20: on a full 9x9 board (no empty cell), [validate] answers [None]
    exactly when the row rule holds. *)
Theorem validate_full_board g :
  shape9 g -> Forall (Forall is_Some) g ->
  (validate (mkSudoku g) = Ok None <-> rows_ok g).
Proof.
  intros Hg Hfull. destruct (validate_shape9_cases g Hg) as [[Hnd ->] | [Hnd ->]].
  - split; [intros _; now apply Forall_NoDup_rows_ok | reflexivity].
  - split; [discriminate|]. intros Hrows. exfalso. apply Hnd.
    eapply Forall_and in Hfull; [|exact Hrows].
    eapply Forall_impl; [|exact Hfull]. intros row [Hok Hs]. exact (present_NoDup row Hs Hok).
Qed.

Lemma validate_full_board_witness :
  validate (mkSudoku repeated_rows) = Ok None <-> rows_ok repeated_rows.
Proof.
  apply validate_full_board;
    [split; [reflexivity | repeat constructor] | apply (bool_decide_unpack _); vm_compute; exact I].
Defined.

(** C21: the contract of the docstring and the spec, "[validate] returns
    whether the board obeys the rules", holds of a 9x9 board exactly when
    some row repeats a cell and the board breaks a rule; on every valid
    board it fails. *)
Theorem validate_contract_iff g :
  shape9 g ->
  (validate (mkSudoku g) = Ok (Some (bool_decide (sudoku_valid g))) <->
   ~ Forall NoDup g /\ ~ sudoku_valid g).
Proof.
  intros Hg. destruct (validate_shape9_cases g Hg) as [[Hnd ->] | [Hnd ->]].
  - split; [discriminate | intros [H _]; contradiction].
  - split.
    + intros [= Hb]. split; [exact Hnd|]. now apply (bool_decide_eq_false_1 (sudoku_valid g)).
    + intros [_ Hv]. now rewrite bool_decide_eq_false_2.
Qed.

Lemma validate_contract_iff_witness :
  (validate (mkSudoku empty_numbers) = Ok (Some (bool_decide (sudoku_valid empty_numbers))) <->
   ~ Forall NoDup empty_numbers /\ ~ sudoku_valid empty_numbers).
Proof. apply validate_contract_iff. exact (proj1 empty_numbers_wf). Defined.

End Rules.
