(* ===== verification/Heap.v ===== *)
(** * The board over a heap of Python list objects

    In Python, [self.numbers] is a reference to a list object whose
    elements are references to row list objects.  [set_cell] mutates the
    row object in place, [get_sudoku] hands out the reference itself, and
    [__init__] and [set_sudoku] store the caller's reference.  This file
    models that store: a heap from locations to list objects (a grid
    object holds locations of rows, a row object holds cells), the
    methods of [src/my_sudoku.py] over it, and

    - a refinement theorem: on a heap whose grid object points to rows at
      pairwise distinct locations, every method answers as its [Board]
      counterpart on the grid read from the heap, errors included, and
      [set_cell] keeps the heap in that form;
    - the aliasing behaviours: a grid whose rows share one object (as
      Python's [[[None] * 9] * 9] builds) sees a write to one row in every
      row; a write through the reference [get_sudoku] returns, or through
      the list given to the constructor, is seen by [get_cell]. *)

From Stdlib Require Import ZArith Lia.
From stdpp Require Import base list option gmap.
From S2P Require Import Prelude Board Validate.

Module Heap.

Import Board.
Local Open Scope Z_scope.
#[local] Set Warnings "-clear-no-such-hyp".

(** Object identities. *)
Abbreviation loc := positive.

(** The two kinds of list objects the code handles:
    [list[list[int | None]]] and [list[int | None]]. *)
Inductive obj :=
  | GridObj (rows : list loc)
  | RowObj (cells : list cell).

Abbreviation heap := (gmap loc obj).

(** The object: its attribute [self.numbers] is a reference. *)
Record HSudoku := mkHSudoku { h_numbers : loc }.

(** Following a reference to a grid or a row object.  In a heap built by
    the methods below a reference always leads to an object of the kind
    the code expects; the [TypeError] is Python's answer otherwise. *)
Definition load_grid (σ : heap) (l : loc) : pyres (list loc) :=
  match σ !! l with
  | Some (GridObj ls) => Ok ls
  | _ => Raise TypeError
  end.

Definition load_row (σ : heap) (l : loc) : pyres (list cell) :=
  match σ !! l with
  | Some (RowObj cells) => Ok cells
  | _ => Raise TypeError
  end.

(** Allocation of a new list object at a fresh location. *)
Definition alloc (σ : heap) (o : obj) : loc * heap :=
  let l := fresh (dom σ) in (l, <[l := o]> σ).

(** [[None for j in range(9)] for i in range(n)]: [n] distinct row
    objects, allocated in order. *)
Fixpoint alloc_rows (σ : heap) (n : nat) : list loc * heap :=
  match n with
  | O => ([], σ)
  | S n' =>
      let '(l, σ1) := alloc σ (RowObj ((fun _ => None) <$> py_range 9)) in
      let '(ls, σ2) := alloc_rows σ1 n' in
      (l :: ls, σ2)
  end.

(** [if not numbers:] on a reference to a list object or [None]. *)
Definition h_not_numbers (σ : heap) (numbers : option loc) : bool :=
  match numbers with
  | None => true
  | Some l => match σ !! l with Some (GridObj []) => true | _ => false end
  end.

(** [Sudoku.__init__] (lines 6-13): the default grid is nine fresh row
    objects and a fresh grid object; a given grid is stored by reference. *)
Definition h_init (σ : heap) (numbers : option loc) : HSudoku * heap :=
  if h_not_numbers σ numbers then
    let '(rows, σ1) := alloc_rows σ 9 in
    let '(l, σ2) := alloc σ1 (GridObj rows) in
    (mkHSudoku l, σ2)
  else (mkHSudoku (default 1%positive numbers), σ).

(** [assert 1 <= pos[0] <= len(self.numbers[0]), ...] (lines 21 and 39) *)
Definition h_assert_column_pos (σ : heap) (s : HSudoku) (pos : list Z) : pyres unit :=
  c <- py_getitem pos 0 ;;
  b <- py_between 1 c (ls <- load_grid σ (h_numbers s) ;;
                       l0 <- py_getitem ls 0 ;;
                       row0 <- load_row σ l0 ;;
                       Ok (py_len row0)) ;;
  py_assert b (ColumnPositionInvalid c).

(** [assert 1 <= pos[1] <= len(self.numbers), ...] (lines 22 and 40) *)
Definition h_assert_row_pos (σ : heap) (s : HSudoku) (pos : list Z) : pyres unit :=
  r <- py_getitem pos 1 ;;
  b <- py_between 1 r (ls <- load_grid σ (h_numbers s) ;; Ok (py_len ls)) ;;
  py_assert b (RowPositionInvalid r).

(** [Sudoku.get_cell] (lines 15-23). *)
Definition h_get_cell (σ : heap) (s : HSudoku) (pos : list Z) : pyres cell :=
  _ <- h_assert_column_pos σ s pos ;;
  _ <- h_assert_row_pos σ s pos ;;
  r <- py_getitem pos 1 ;;
  ls <- load_grid σ (h_numbers s) ;;
  l <- py_getitem ls (r - 1) ;;
  row <- load_row σ l ;;
  c <- py_getitem pos 0 ;;
  py_getitem row (c - 1).

(** [Sudoku.set_cell] (lines 32-42): the row object is updated in place. *)
Definition h_set_cell (σ : heap) (s : HSudoku) (pos : list Z) (value : cell) : pyres heap :=
  _ <- h_assert_column_pos σ s pos ;;
  _ <- h_assert_row_pos σ s pos ;;
  _ <- assert_value value ;;
  r <- py_getitem pos 1 ;;
  ls <- load_grid σ (h_numbers s) ;;
  l <- py_getitem ls (r - 1) ;;
  row <- load_row σ l ;;
  c <- py_getitem pos 0 ;;
  row' <- py_setitem row (c - 1) value ;;
  Ok (<[l := RowObj row']> σ).

(** [Sudoku.get_sudoku] (lines 25-30): the reference itself. *)
Definition h_get_sudoku (s : HSudoku) : loc := h_numbers s.

(** [Sudoku.set_sudoku] (lines 44-50): stores the reference. *)
Definition h_set_sudoku (s : HSudoku) (numbers : loc) : HSudoku := mkHSudoku numbers.

(** A caller's [numbers[r][c] = value] through a reference to a grid
    object, e.g. the one [get_sudoku] returned: Python's item assignment
    on the row object. *)
Definition py_setitem2 (σ : heap) (g : loc) (r c : Z) (value : cell) : pyres heap :=
  ls <- load_grid σ g ;;
  l <- py_getitem ls r ;;
  row <- load_row σ l ;;
  row' <- py_setitem row c value ;;
  Ok (<[l := RowObj row']> σ).

(** [Sudoku.validate] (lines 52-78) over the heap: [for row in
    self.numbers] follows each row reference; the comprehension of line 67
    indexes the grid object, then the row object. *)
Fixpoint h_validate_rows (σ : heap) (ls : list loc) : pyres bool :=
  match ls with
  | [] => Ok true
  | l :: ls' =>
      row <- load_row σ l ;;
      if Validate.scan_line [] row then h_validate_rows σ ls' else Ok false
  end.

Definition h_get_column (σ : heap) (ls : list loc) (col : Z) : pyres (list cell) :=
  py_mapM (fun i => l <- py_getitem ls col ;; row <- load_row σ l ;; py_getitem row i)
          (py_range (py_len ls)).

Fixpoint h_validate_columns (σ : heap) (ls : list loc) (cols : list Z) : pyres bool :=
  match cols with
  | [] => Ok true
  | col :: cols' =>
      column <- h_get_column σ ls col ;;
      if Validate.scan_line [] column then h_validate_columns σ ls cols' else Ok false
  end.

Definition h_validate (σ : heap) (s : HSudoku) : pyres (option bool) :=
  ls <- load_grid σ (h_numbers s) ;;
  ok <- h_validate_rows σ ls ;;
  if ok then
    l0 <- py_getitem ls 0 ;;
    row0 <- load_row σ l0 ;;
    ok' <- h_validate_columns σ ls (py_range (py_len row0)) ;;
    if ok' then (let _ := Validate.boxes in Ok None) else Ok (Some false)
  else Ok (Some false).

(** ** The grid a reference denotes *)

(** [heap_repr σ g ls grid]: [g] is a grid object whose rows are at the
    locations [ls] and hold the rows of [grid]. *)
Definition heap_repr (σ : heap) (g : loc) (ls : list loc) (grid : grid) : Prop :=
  σ !! g = Some (GridObj ls) /\
  Forall2 (fun l row => σ !! l = Some (RowObj row)) ls grid.

(** The grid a heap holds after [row'] is written into the row object at
    [l]: every row of the grid object stored at [l] becomes [row']. *)
Definition write_rows (ls : list loc) (rows : grid) (l : loc) (row' : list cell) : grid :=
  zip_with (fun lk row => if decide (lk = l) then row' else row) ls rows.

#[export] Instance obj_eq_dec : EqDecision obj.
Proof. solve_decision. Defined.

#[export] Instance heap_repr_dec σ g ls grid : Decision (heap_repr σ g ls grid).
Proof. unfold heap_repr. apply _. Defined.

(** Test heaps: the one the constructor builds from an empty heap, and
    Python's [[[None] * 9] * 9], nine references to one row object. *)
Definition default_board : HSudoku := fst (h_init ∅ None).
Definition default_heap : heap := snd (h_init ∅ None).
Definition default_rows : list loc := [1; 2; 3; 4; 5; 6; 7; 8; 9]%positive.
Definition shared_heap : heap :=
  <[1%positive := GridObj (replicate 9 2%positive)]>
    (<[2%positive := RowObj (replicate 9 None)]> ∅).

(** ** Reading through the heap *)

Lemma load_grid_repr σ g ls grid : heap_repr σ g ls grid -> load_grid σ g = Ok ls.
Proof. intros [Hg _]. unfold load_grid. now rewrite Hg. Qed.

(** [self.numbers[i]] followed to its row object is the [i]-th row. *)
Lemma load_row_at σ g ls grid i :
  heap_repr σ g ls grid -> pybind (py_getitem ls i) (load_row σ) = py_getitem grid i.
Proof.
  intros [_ H]. pose proof (py_getitem_Forall2 _ _ _ i H) as Hi.
  destruct (py_getitem ls i), (py_getitem grid i); try contradiction; cbn [pybind].
  - unfold load_row. now rewrite Hi.
  - now subst.
Qed.

Lemma h_assert_column_pos_repr σ s ls grid pos :
  heap_repr σ (h_numbers s) ls grid ->
  h_assert_column_pos σ s pos = assert_column_pos (mkSudoku grid) pos.
Proof.
  intros Hr. unfold h_assert_column_pos, assert_column_pos. cbn [numbers].
  rewrite (load_grid_repr _ _ _ _ Hr). cbn [pybind].
  rewrite <- (pybind_assoc (py_getitem ls 0) (load_row σ)), (load_row_at _ _ _ _ 0 Hr).
  reflexivity.
Qed.

Lemma h_assert_row_pos_repr σ s ls grid pos :
  heap_repr σ (h_numbers s) ls grid ->
  h_assert_row_pos σ s pos = assert_row_pos (mkSudoku grid) pos.
Proof.
  intros Hr. unfold h_assert_row_pos, assert_row_pos. cbn [numbers].
  rewrite (load_grid_repr _ _ _ _ Hr). cbn [pybind]. unfold py_len.
  rewrite (Forall2_length _ _ _ (proj2 Hr)). reflexivity.
Qed.

(** Writing a row object whose location occurs once in the grid object
    updates that row of the grid and no other. *)
Lemma heap_repr_update σ g ls grid n l row row' :
  heap_repr σ g ls grid -> NoDup ls -> ls !! n = Some l -> σ !! l = Some (RowObj row) ->
  heap_repr (<[l := RowObj row']> σ) g ls (<[n := row']> grid).
Proof.
  intros [Hg Hrows] Hnd Hl Hrow. split.
  - rewrite lookup_insert_ne; [exact Hg|]. intros ->. congruence.
  - apply Forall2_lookup. intros k.
    pose proof (proj1 (Forall2_lookup _ _ _) Hrows k) as Hk'.
    destruct (decide (k = n)) as [->|Hk].
    + rewrite Hl, list_lookup_insert_eq by (apply lookup_lt_Some in Hl;
        rewrite <- (Forall2_length _ _ _ Hrows); exact Hl).
      constructor. apply lookup_insert_eq.
    + rewrite list_lookup_insert_ne by congruence.
      destruct (ls !! k) as [lk|] eqn:Hlk, (grid !! k) eqn:Hgk;
        inversion Hk'; subst; constructor.
      rewrite lookup_insert_ne; [assumption|].
      intros ->. apply Hk. eapply NoDup_lookup; eassumption.
Qed.

(** Writing a row object updates every row stored at its location. *)
Lemma heap_repr_write σ g ls grid l row row' :
  heap_repr σ g ls grid -> σ !! l = Some (RowObj row) ->
  heap_repr (<[l := RowObj row']> σ) g ls (write_rows ls grid l row').
Proof.
  intros [Hg Hrows] Hl. split.
  - rewrite lookup_insert_ne; [exact Hg|]. intros ->. congruence.
  - apply Forall2_lookup. intros k. unfold write_rows. rewrite lookup_zip_with.
    pose proof (proj1 (Forall2_lookup _ _ _) Hrows k) as Hk.
    destruct (ls !! k) as [lk|], (grid !! k); inversion Hk; subst; simpl; constructor.
    case_decide as E; [subst; apply lookup_insert_eq|].
    rewrite lookup_insert_ne by congruence. assumption.
Qed.

Lemma write_rows_shape9 σ g ls grid l row row' :
  heap_repr σ g ls grid -> shape9 grid -> σ !! l = Some (RowObj row) ->
  length row' = length row -> shape9 (write_rows ls grid l row').
Proof.
  intros [_ Hrows] [Hlen Hgrid] Hl Hrow'. split.
  - unfold write_rows. rewrite length_zip_with, (Forall2_length _ _ _ Hrows). lia.
  - apply Forall_lookup. intros k row'' Hk. unfold write_rows in Hk.
    rewrite lookup_zip_with in Hk.
    pose proof (proj1 (Forall2_lookup _ _ _) Hrows k) as Hk'.
    destruct (ls !! k) as [lk|], (grid !! k) as [rk|] eqn:Hgk; inversion Hk'; subst;
      simplify_eq/=.
    case_decide; subst.
    + rewrite Hrow'. simplify_eq. exact (Forall_lookup_1 _ _ _ _ Hgrid Hgk).
    + exact (Forall_lookup_1 _ _ _ _ Hgrid Hgk).
Qed.

(** [get_cell] over the heap answers as [Board.get_cell] on the grid the
    heap holds at [self.numbers], errors included. *)
Lemma h_get_cell_repr σ s ls grid pos :
  heap_repr σ (h_numbers s) ls grid -> h_get_cell σ s pos = get_cell (mkSudoku grid) pos.
Proof.
  intros Hr. unfold h_get_cell, get_cell.
  rewrite (h_assert_column_pos_repr _ _ _ _ _ Hr), (h_assert_row_pos_repr _ _ _ _ _ Hr).
  destruct (assert_column_pos _ pos) as [[]|]; cbn [pybind]; [|reflexivity].
  destruct (assert_row_pos _ pos) as [[]|]; cbn [pybind]; [|reflexivity].
  destruct (py_getitem pos 1) as [r|]; cbn [pybind]; [|reflexivity].
  rewrite (load_grid_repr _ _ _ _ Hr). cbn [pybind numbers].
  rewrite <- (pybind_assoc (py_getitem ls (r - 1)) (load_row σ)), (load_row_at _ _ _ _ _ Hr).
  reflexivity.
Qed.

Lemma h_validate_rows_repr σ ls grid :
  Forall2 (fun l row => σ !! l = Some (RowObj row)) ls grid ->
  h_validate_rows σ ls = Ok (Validate.validate_rows grid).
Proof.
  induction 1 as [|l row ls grid Hl _ IH]; [reflexivity|]. cbn [h_validate_rows Validate.validate_rows].
  unfold load_row at 1. rewrite Hl. cbn [pybind].
  destruct (Validate.scan_line [] row); [exact IH | reflexivity].
Qed.

Lemma h_get_column_repr σ g ls grid col :
  heap_repr σ g ls grid -> h_get_column σ ls col = Validate.get_column grid col.
Proof.
  intros Hr. unfold h_get_column, Validate.get_column. unfold py_len at 1 2.
  rewrite (Forall2_length _ _ _ (proj2 Hr)). apply py_mapM_ext. intros i.
  rewrite <- pybind_assoc, (load_row_at _ _ _ _ _ Hr). reflexivity.
Qed.

Lemma h_validate_columns_repr σ g ls grid cols :
  heap_repr σ g ls grid -> h_validate_columns σ ls cols = Validate.validate_columns grid cols.
Proof.
  intros Hr. induction cols as [|col cols IH]; [reflexivity|]. cbn [h_validate_columns Validate.validate_columns].
  rewrite (h_get_column_repr _ _ _ _ _ Hr). destruct (Validate.get_column grid col); cbn [pybind]; [|reflexivity].
  destruct (Validate.scan_line [] _); [exact IH | reflexivity].
Qed.

Lemma h_validate_repr σ s ls grid :
  heap_repr σ (h_numbers s) ls grid -> h_validate σ s = Validate.validate (mkSudoku grid).
Proof.
  intros Hr. unfold h_validate, Validate.validate. cbn [numbers].
  rewrite (load_grid_repr _ _ _ _ Hr). cbn [pybind].
  rewrite (h_validate_rows_repr _ _ _ (proj2 Hr)). cbn [pybind].
  destruct (Validate.validate_rows grid); [|reflexivity].
  rewrite <- (pybind_assoc (py_getitem ls 0) (load_row σ)), (load_row_at _ _ _ _ 0 Hr).
  destruct (py_getitem grid 0); cbn [pybind]; [|reflexivity].
  now rewrite (h_validate_columns_repr _ _ _ _ _ Hr).
Qed.

(** After [row'] is written into the row object at [l], [get_cell] at
    every row stored at [l] reads [row']. *)
Lemma h_get_cell_after_write σ s ls grid l row row' c k x :
  heap_repr σ (h_numbers s) ls grid -> shape9 grid -> σ !! l = Some (RowObj row) ->
  length row' = length row -> row' !! Z.to_nat (c - 1) = Some x -> 1 <= c <= 9 ->
  ls !! k = Some l ->
  h_get_cell (<[l := RowObj row']> σ) s [c; Z.of_nat k + 1] = Ok x.
Proof.
  intros Hr Hg Hl Hlen Hx Hc Hk.
  pose proof (heap_repr_write _ _ _ _ _ _ row' Hr Hl) as Hr'.
  pose proof (write_rows_shape9 _ _ _ _ _ _ _ Hr Hg Hl Hlen) as Hg'.
  assert (Hk9 : (k < 9)%nat)
    by (destruct Hg as [H9 _]; apply lookup_lt_Some in Hk;
        rewrite (Forall2_length _ _ _ (proj2 Hr)) in Hk; lia).
  rewrite (h_get_cell_repr _ _ _ _ _ Hr'), get_cell_eq.
  destruct (shape9_guards _ c (Z.of_nat k + 1) [] Hg' Hc ltac:(lia)) as [-> ->].
  cbn [pybind numbers]. unfold cell_at.
  replace (Z.to_nat (Z.of_nat k + 1 - 1)) with k by lia.
  unfold write_rows. rewrite lookup_zip_with, Hk.
  pose proof (proj1 (Forall2_lookup _ _ _) (proj2 Hr) k) as Hk'. rewrite Hk in Hk'.
  destruct (grid !! k); inversion Hk'; subst. simpl. rewrite decide_True by reflexivity.
  now rewrite Hx.
Qed.

Lemma repr_row σ g ls grid k l :
  heap_repr σ g ls grid -> ls !! k = Some l ->
  exists row, grid !! k = Some row /\ σ !! l = Some (RowObj row).
Proof.
  intros [_ Hrows] Hk. pose proof (proj1 (Forall2_lookup _ _ _) Hrows k) as Hk'.
  rewrite Hk in Hk'. destruct (grid !! k) as [row|]; inversion Hk'; subst. eauto.
Qed.

Lemma repr_shape9_index σ g ls grid k l :
  heap_repr σ g ls grid -> shape9 grid -> ls !! k = Some l -> (k < 9)%nat.
Proof.
  intros Hr [H9 _] Hk. apply lookup_lt_Some in Hk.
  rewrite (Forall2_length _ _ _ (proj2 Hr)) in Hk. lia.
Qed.

(** [set_cell] at a valid position of a 9x9 grid held in the heap writes
    the row object of that row. *)
Lemma h_set_cell_shape9 σ s ls grid k l row c v :
  heap_repr σ (h_numbers s) ls grid -> shape9 grid -> ls !! k = Some l ->
  σ !! l = Some (RowObj row) -> 1 <= c <= 9 -> 1 <= v <= 9 ->
  h_set_cell σ s [c; Z.of_nat k + 1] (Some v) =
  Ok (<[l := RowObj (<[Z.to_nat (c - 1) := Some v]> row)]> σ).
Proof.
  intros Hr Hg Hk Hl Hc Hv.
  pose proof (repr_shape9_index _ _ _ _ _ _ Hr Hg Hk) as Hk9.
  destruct (repr_row _ _ _ _ _ _ Hr Hk) as (row1 & Hgk & Hl1).
  rewrite Hl in Hl1. injection Hl1 as <-.
  assert (Hlen : length row = 9%nat) by exact (Forall_lookup_1 _ _ _ _ (proj2 Hg) Hgk).
  unfold h_set_cell.
  rewrite (h_assert_column_pos_repr _ _ _ _ _ Hr), (h_assert_row_pos_repr _ _ _ _ _ Hr).
  destruct (shape9_guards _ c (Z.of_nat k + 1) [] Hg Hc ltac:(lia)) as [-> ->].
  rewrite assert_value_ok by exact Hv. py_run.
  rewrite (load_grid_repr _ _ _ _ Hr). cbn [pybind].
  replace (Z.of_nat k + 1 - 1) with (Z.of_nat k) by lia.
  rewrite py_getitem_nat, Hk. cbn [pybind]. unfold load_row. rewrite Hl. cbn [pybind].
  rewrite py_setitem_pos, decide_True by lia. reflexivity.
Qed.

Lemma alloc_rows_spec σ n ls σ' :
  alloc_rows σ n = (ls, σ') ->
  NoDup ls /\ length ls = n /\ Forall (fun l => l ∉ dom σ) ls /\
  Forall (fun l => σ' !! l = Some (RowObj ((fun _ => None) <$> py_range 9))) ls /\
  (forall l, l ∉ ls -> σ' !! l = σ !! l).
Proof.
  revert σ ls σ'. induction n as [|n IH]; intros σ ls σ' H; cbn [alloc_rows] in H.
  - injection H as <- <-. repeat split; constructor.
  - unfold alloc in H.
    destruct (alloc_rows (<[fresh (dom σ) := _]> σ) n) as [ls1 σ2] eqn:E.
    injection H as <- <-.
    destruct (IH _ _ _ E) as (Hnd & Hlen & Hfresh & Hrows & Hother).
    pose proof (is_fresh (dom σ)) as Hl.
    set (l := fresh (dom σ)) in *.
    assert (Hne : forall l', l' ∈ ls1 -> l' <> l /\ l' ∉ dom σ).
    { intros l' Hl'. rewrite Forall_forall in Hfresh. specialize (Hfresh l' Hl').
      rewrite dom_insert_L in Hfresh. set_solver. }
    repeat split.
    + constructor; [|exact Hnd]. intros Hin. now destruct (Hne l Hin).
    + simpl. lia.
    + constructor; [exact Hl|]. apply Forall_forall. intros l' Hl'.
      exact (proj2 (Hne l' Hl')).
    + constructor; [|exact Hrows]. rewrite Hother; [apply lookup_insert_eq|].
      intros Hin. now destruct (Hne l Hin).
    + intros l' Hl'. rewrite Hother by set_solver. apply lookup_insert_ne. set_solver.
Qed.

(** ** Refinement of [Board] *)

(** [set_cell] over a heap without shared rows simulates [Board.set_cell]. *)
Lemma h_set_cell_sim σ s ls grid pos v :
  heap_repr σ (h_numbers s) ls grid -> NoDup ls ->
  match set_cell (mkSudoku grid) pos v with
  | Ok s' => exists σ', h_set_cell σ s pos v = Ok σ' /\ heap_repr σ' (h_numbers s) ls (numbers s')
  | Raise e => h_set_cell σ s pos v = Raise e
  end.
Proof.
  intros Hr Hnd. unfold h_set_cell, set_cell.
  rewrite (h_assert_column_pos_repr _ _ _ _ _ Hr), (h_assert_row_pos_repr _ _ _ _ _ Hr).
  destruct (assert_column_pos _ pos) as [[]|]; cbn [pybind]; [|reflexivity].
  destruct (assert_row_pos _ pos) as [[]|]; cbn [pybind]; [|reflexivity].
  destruct (assert_value v) as [[]|]; cbn [pybind]; [|reflexivity].
  destruct (py_getitem pos 1) as [r|]; cbn [pybind]; [|reflexivity].
  rewrite (load_grid_repr _ _ _ _ Hr). cbn [pybind numbers].
  pose proof (py_getitem_Forall2 _ _ _ (r - 1) (proj2 Hr)) as Hi.
  destruct (py_getitem ls (r - 1)) as [l|e] eqn:Hl, (py_getitem grid (r - 1)) as [row|e'];
    try contradiction; cbn [pybind]; [|subst; reflexivity].
  unfold load_row. rewrite Hi. cbn [pybind].
  destruct (py_getitem pos 0) as [c|]; cbn [pybind]; [|reflexivity].
  destruct (py_setitem row (c - 1) v) as [row'|]; cbn [pybind]; [|reflexivity].
  apply py_getitem_Ok_index in Hl as (n & Hn & Hln).
  rewrite (py_setitem_index grid (r - 1) n row')
    by (rewrite <- (py_norm_index_len ls grid) by exact (Forall2_length _ _ _ (proj2 Hr));
        exact Hn).
  cbn [pybind numbers]. eexists. split; [reflexivity|].
  eapply heap_repr_update; eassumption.
Qed.

(** A successful [set_cell] over such a heap is a successful
    [Board.set_cell] on the grid it holds. *)
Lemma h_set_cell_Ok_inv σ s ls grid pos v σ' :
  heap_repr σ (h_numbers s) ls grid -> NoDup ls -> h_set_cell σ s pos v = Ok σ' ->
  exists s', set_cell (mkSudoku grid) pos v = Ok s' /\ heap_repr σ' (h_numbers s) ls (numbers s').
Proof.
  intros Hr Hnd Hset. pose proof (h_set_cell_sim σ s ls grid pos v Hr Hnd) as Hsim.
  destruct (set_cell (mkSudoku grid) pos v) as [s'|e].
  - destruct Hsim as (σ'' & Hσ'' & Hr'). rewrite Hset in Hσ''. injection Hσ'' as <-. eauto.
  - congruence.
Qed.

(** C23: simulation.  On a heap whose grid object lists pairwise distinct
    row objects, [set_cell] over the heap fails exactly when
    [Board.set_cell] fails, with the same exception, and otherwise the new
    heap holds, at the same grid object and row objects, the grid
    [Board.set_cell] produces. *)
Theorem h_set_cell_refines σ s ls grid pos v :
  heap_repr σ (h_numbers s) ls grid -> NoDup ls ->
  match set_cell (mkSudoku grid) pos v with
  | Ok s' => exists σ', h_set_cell σ s pos v = Ok σ' /\ heap_repr σ' (h_numbers s) ls (numbers s')
  | Raise e => h_set_cell σ s pos v = Raise e
  end.
Proof. exact (h_set_cell_sim σ s ls grid pos v). Qed.

(** C7: frame, for a grid of pairwise distinct row objects.  After a
    successful [set_cell] at column [c], row [r], [get_cell] at every
    other position answers exactly as before, errors included.  (With
    shared row objects the frame fails: see [h_shared_row_write].) *)
Theorem h_set_cell_frame σ s ls grid c r rest x σ' pos :
  heap_repr σ (h_numbers s) ls grid -> NoDup ls ->
  h_set_cell σ s (c :: r :: rest) x = Ok σ' ->
  (forall c' r' rest', pos = c' :: r' :: rest' -> (c', r') <> (c, r)) ->
  h_get_cell σ' s pos = h_get_cell σ s pos.
Proof.
  intros Hr Hnd Hset Hpos. destruct (h_set_cell_Ok_inv _ _ _ _ _ _ _ Hr Hnd Hset) as (s1 & Hs1 & Hr1).
  rewrite (h_get_cell_repr _ _ _ _ _ Hr1), (h_get_cell_repr _ _ _ _ _ Hr). destruct s1.
  exact (set_cell_get_other _ _ _ _ _ _ _ Hs1 Hpos).
Qed.

Lemma h_set_cell_frame_witness :
  exists σ', h_set_cell default_heap default_board [2; 3] (Some 5) = Ok σ' /\
    h_get_cell σ' default_board [3; 2] = h_get_cell default_heap default_board [3; 2].
Proof.
  eexists. split; [vm_compute; reflexivity|].
  apply (h_set_cell_frame _ _ default_rows empty_numbers 2 3 [] (Some 5));
    [apply (bool_decide_unpack _); vm_compute; exact I | apply (bool_decide_unpack _); vm_compute; exact I
    | vm_compute; reflexivity | intros c' r' rest' [= <- <- <-]; discriminate].
Defined.

Lemma h_set_cell_refines_witness :
  exists σ', h_set_cell default_heap default_board [2; 3] (Some 5) = Ok σ' /\
    heap_repr σ' (h_numbers default_board) default_rows
      (<[2%nat := <[1%nat := Some 5]> ((fun _ => None) <$> py_range 9)]> empty_numbers).
Proof.
  exact (h_set_cell_refines default_heap default_board default_rows empty_numbers [2; 3] (Some 5)
           ltac:(apply (bool_decide_unpack _); vm_compute; exact I)
           ltac:(apply (bool_decide_unpack _); vm_compute; exact I)).
Defined.

(** C24: aliasing.  When two rows [i] and [j] of the grid are the same
    list object (as in [[[None] * 9] * 9]), [set_cell] in row [i + 1]
    succeeds and [get_cell] at the same column of row [j + 1] then
    returns the value written: the write is not confined to its cell. *)
Theorem h_shared_row_write σ s ls grid i j l c v :
  heap_repr σ (h_numbers s) ls grid -> shape9 grid ->
  ls !! i = Some l -> ls !! j = Some l -> 1 <= c <= 9 -> 1 <= v <= 9 ->
  exists σ', h_set_cell σ s [c; Z.of_nat i + 1] (Some v) = Ok σ' /\
             h_get_cell σ' s [c; Z.of_nat j + 1] = Ok (Some v).
Proof.
  intros Hr Hg Hi Hj Hc Hv.
  destruct (repr_row _ _ _ _ _ _ Hr Hi) as (row & Hgi & Hl).
  assert (Hlen : length row = 9%nat) by exact (Forall_lookup_1 _ _ _ _ (proj2 Hg) Hgi).
  eexists. split; [exact (h_set_cell_shape9 _ _ _ _ _ _ _ _ _ Hr Hg Hi Hl Hc Hv)|].
  apply (h_get_cell_after_write σ s ls grid l row); auto.
  - apply length_insert.
  - apply list_lookup_insert_eq. lia.
Qed.

Lemma h_shared_row_write_witness :
  exists σ', h_set_cell shared_heap (mkHSudoku 1) [1; 1] (Some 5) = Ok σ' /\
             h_get_cell σ' (mkHSudoku 1) [1; 2] = Ok (Some 5).
Proof.
  apply (h_shared_row_write shared_heap (mkHSudoku 1) (replicate 9 2%positive)
           (replicate 9 (replicate 9 None)) 0 1 2%positive 1 5);
    [apply (bool_decide_unpack _); vm_compute; exact I
    | split; [reflexivity | repeat constructor] | reflexivity | reflexivity | lia | lia].
Defined.

(** A write [grid[k][c - 1] = v] through a reference to a 9x9 grid object
    is read back by [get_cell] of a board whose [self.numbers] is that
    reference. *)
Lemma py_setitem2_visible σ s ls grid k c v :
  heap_repr σ (h_numbers s) ls grid -> shape9 grid -> (k < 9)%nat -> 1 <= c <= 9 ->
  exists σ', py_setitem2 σ (h_numbers s) (Z.of_nat k) (c - 1) v = Ok σ' /\
             h_get_cell σ' s [c; Z.of_nat k + 1] = Ok v.
Proof.
  intros Hr Hg Hk Hc.
  destruct (lookup_lt_is_Some_2 ls k) as [l Hl];
    [rewrite (Forall2_length _ _ _ (proj2 Hr)); destruct Hg as [-> _]; exact Hk|].
  destruct (repr_row _ _ _ _ _ _ Hr Hl) as (row & Hgk & Hrow).
  assert (Hlen : length row = 9%nat) by exact (Forall_lookup_1 _ _ _ _ (proj2 Hg) Hgk).
  eexists. split.
  - unfold py_setitem2. rewrite (load_grid_repr _ _ _ _ Hr). cbn [pybind].
    rewrite py_getitem_nat, Hl. cbn [pybind]. unfold load_row. rewrite Hrow. cbn [pybind].
    rewrite py_setitem_pos, decide_True by lia. reflexivity.
  - apply (h_get_cell_after_write σ s ls grid l row); auto.
    + apply length_insert.
    + apply list_lookup_insert_eq. lia.
Qed.

(** C25: [get_sudoku] hands out the live grid.  A caller's
    [grid[r][c] = v] through the reference it returns is seen by the next
    [get_cell], for any [v], outside [1..9] included: the value check of
    [set_cell] is bypassed. *)
Theorem h_get_sudoku_write_visible σ s ls grid k c v :
  heap_repr σ (h_numbers s) ls grid -> shape9 grid -> (k < 9)%nat -> 1 <= c <= 9 ->
  exists σ', py_setitem2 σ (h_get_sudoku s) (Z.of_nat k) (c - 1) v = Ok σ' /\
             h_get_cell σ' s [c; Z.of_nat k + 1] = Ok v.
Proof. exact (py_setitem2_visible σ s ls grid k c v). Qed.

Lemma h_get_sudoku_write_visible_witness :
  exists σ', py_setitem2 default_heap (h_get_sudoku default_board) 0 0 (Some 42) = Ok σ' /\
             h_get_cell σ' default_board [1; 1] = Ok (Some 42).
Proof.
  apply (h_get_sudoku_write_visible default_heap default_board default_rows empty_numbers 0 1 (Some 42));
    [apply (bool_decide_unpack _); vm_compute; exact I
    | exact (proj1 empty_numbers_wf) | lia | lia].
Defined.

(** C26: the constructor without a grid allocates nine distinct row
    objects and a grid object holding them: the heap then represents
    [Board]'s default board with no shared rows, the case where [set_cell]
    over the heap simulates [Board.set_cell]; every object that existed
    before is unchanged. *)
Theorem h_init_default σ s σ' :
  h_init σ None = (s, σ') ->
  exists ls, heap_repr σ' (h_numbers s) ls (numbers (init None)) /\ NoDup ls /\
    (forall l o, σ !! l = Some o -> σ' !! l = Some o).
Proof.
  unfold h_init. cbn [h_not_numbers]. destruct (alloc_rows σ 9) as [ls σ1] eqn:E.
  unfold alloc. intros [= <- <-]. cbn [h_numbers numbers init py_not_numbers].
  destruct (alloc_rows_spec _ _ _ _ E) as (Hnd & Hlen & Hfresh & Hrows & Hother).
  pose proof (is_fresh (dom σ1)) as Hg. set (g := fresh (dom σ1)) in *.
  assert (Hne : forall l o, σ1 !! l = Some o -> g <> l)
    by (intros l o Hl <-; apply Hg; eapply elem_of_dom_2; exact Hl).
  exists ls. split; [split|split].
  - apply lookup_insert_eq.
  - apply Forall2_lookup. intros k. unfold empty_numbers. rewrite list_lookup_fmap.
    destruct (decide (k < 9)%nat) as [Hk|Hk].
    + destruct (lookup_lt_is_Some_2 ls k) as [lk Hlk]; [lia|].
      destruct (lookup_lt_is_Some_2 (py_range 9) k) as [z Hz]; [exact Hk|].
      rewrite Hlk, Hz. constructor. pose proof (Forall_lookup_1 _ _ _ _ Hrows Hlk) as Hl.
      rewrite lookup_insert_ne by (eapply Hne; exact Hl). exact Hl.
    + rewrite (lookup_ge_None_2 ls), (lookup_ge_None_2 (py_range 9)) by (simpl; lia).
      constructor.
  - exact Hnd.
  - intros l o Ho. assert (Hl : l ∉ ls).
    { intros Hin. rewrite Forall_forall in Hfresh. apply (Hfresh l Hin). eapply elem_of_dom_2. exact Ho. }
    rewrite lookup_insert_ne by (eapply Hne; rewrite Hother by exact Hl; exact Ho).
    rewrite Hother by exact Hl. exact Ho.
Qed.

Lemma h_init_default_witness :
  exists ls, heap_repr default_heap (h_numbers default_board) ls (numbers (init None)) /\
    NoDup ls /\ (forall l o, (∅ : heap) !! l = Some o -> default_heap !! l = Some o).
Proof. apply (h_init_default ∅). reflexivity. Defined.

(** C27: the constructor given a non-empty grid stores the caller's
    reference without copying: the heap is unchanged, and a later write
    by the caller through its own reference is seen by [get_cell] of the
    new board. *)
Theorem h_init_shares_argument σ l ls grid k c v :
  heap_repr σ l ls grid -> shape9 grid -> (k < 9)%nat -> 1 <= c <= 9 ->
  h_init σ (Some l) = (mkHSudoku l, σ) /\
  exists σ', py_setitem2 σ l (Z.of_nat k) (c - 1) v = Ok σ' /\
             h_get_cell σ' (mkHSudoku l) [c; Z.of_nat k + 1] = Ok v.
Proof.
  intros Hr Hg Hk Hc. split.
  - unfold h_init, h_not_numbers. rewrite (proj1 Hr).
    destruct ls as [|l0 ls]; [|reflexivity].
    destruct Hg as [H9 _]. pose proof (Forall2_length _ _ _ (proj2 Hr)). simpl in *. lia.
  - exact (py_setitem2_visible σ (mkHSudoku l) ls grid k c v Hr Hg Hk Hc).
Qed.

Lemma h_init_shares_argument_witness :
  h_init default_heap (Some 10%positive) = (mkHSudoku 10, default_heap) /\
  exists σ', py_setitem2 default_heap 10 0 0 (Some 7) = Ok σ' /\
             h_get_cell σ' (mkHSudoku 10) [1; 1] = Ok (Some 7).
Proof.
  apply (h_init_shares_argument default_heap 10 default_rows empty_numbers 0 1 (Some 7));
    [apply (bool_decide_unpack _); vm_compute; exact I
    | exact (proj1 empty_numbers_wf) | lia | lia].
Defined.

End Heap.
