(* ===== verification/Runs.v ===== *)
(** * Callers of the board: runs of [set_cell] calls

    The value model [Board.Sudoku] and the heap model [Heap] both
    implement the interface [Store.CellStore] with their [get_cell] and
    [set_cell]; their laws are discharged here from the lemmas of
    [Board.v] and from the simulation of [Heap.v].  The client theorems
    of [Store.v] then apply to both:

    - a run of valid writes on a heap whose rows are distinct objects
      holding a well-formed board refines the abstract board (a finite
      map from positions to cells): each read answers the last write to
      its position (in the value model, where rows are values, the same
      holds by [board_laws]; on shared rows it fails, see
      [Heap.h_shared_row_write]);
    - a run of writes over a heap without shared rows answers as the same
      run on the grid the heap holds, errors included;
    - every well-formed board is reached from the default board of
      [__init__] by writing its digits with [set_cell], and no run of
      [set_cell] calls empties a cell. *)

From Stdlib Require Import ZArith Lia.
From stdpp Require Import base list option gmap.
From S2P Require Import Prelude Store Board Heap.

Module Runs.

Import Store Board Heap.
Local Open Scope Z_scope.

(** [Board.Sudoku] as a cell store: [get_cell], [set_cell], and the
    documented board as its invariant. *)
#[export] Instance board_store : CellStore Sudoku := {|
  store_get := get_cell;
  store_set := set_cell;
  store_ok s := wf_grid (numbers s)
|}.

#[export] Instance board_laws : CellStoreLaws Sudoku.
Proof.
  split; cbn [store_get store_set store_ok board_store].
  - intros [g] c r [Hg _] [Hc Hr].
    destruct (get_cell_shape9 g c r [] Hg Hc Hr) as (x & _ & Hx). eauto.
  - intros [g] c r v [Hg _] [Hc Hr] Hv.
    destruct (set_cell_shape9 g c r [] v Hg Hc Hr Hv) as (g' & _ & Hs). eauto.
  - exact set_cell_wf.
  - intros s c r x s' _. exact (set_cell_get_same s c r [] x s').
  - intros s c r x s' c' r' _ Hset Hne. apply (set_cell_get_other s c r [] x s' [c'; r'] Hset).
    intros c'' r'' rest' [= <- <- _]. exact Hne.
Qed.

(** The invariant of the heap model: [self.numbers] refers to a grid
    object over pairwise distinct row objects holding a documented board. *)
Definition h_ok (σ : heap) (s : HSudoku) : Prop :=
  exists ls grid, heap_repr σ (h_numbers s) ls grid /\ NoDup ls /\ wf_grid grid.

(** The heap model as a cell store: the heap and the object whose
    [self.numbers] refers into it.  A write threads the heap; the object
    itself does not change. *)
#[export] Instance heap_store : CellStore (heap * HSudoku) := {|
  store_get st := h_get_cell st.1 st.2;
  store_set st pos x := σ' <- h_set_cell st.1 st.2 pos x ;; Ok (σ', st.2);
  store_ok st := h_ok st.1 st.2
|}.

#[export] Instance heap_laws : CellStoreLaws (heap * HSudoku).
Proof.
  split; cbn [store_get store_set store_ok heap_store fst snd].
  - intros [σ s] c r (ls & g & Hr & _ & [Hg _]) [Hc Hr']. simpl.
    rewrite (h_get_cell_repr _ _ _ _ _ Hr).
    destruct (get_cell_shape9 g c r [] Hg Hc Hr') as (x & _ & Hx). eauto.
  - intros [σ s] c r v (ls & g & Hr & Hnd & [Hg _]) [Hc Hr'] Hv. simpl.
    destruct (set_cell_shape9 g c r [] v Hg Hc Hr' Hv) as (g' & _ & Hs).
    pose proof (h_set_cell_sim σ s ls g [c; r] (Some v) Hr Hnd) as Hsim.
    rewrite Hs in Hsim. destruct Hsim as (σ' & -> & _). eexists. reflexivity.
  - intros [σ s] pos x [σ' s'] (ls & g & Hr & Hnd & Hwf) Hset. simpl in *. py_inv Hset.
    injection Hset as <- <-. destruct (h_set_cell_Ok_inv _ _ _ _ _ _ _ Hr Hnd Hstep) as (s1 & Hs1 & Hr1).
    exists ls, (numbers s1). split; [exact Hr1|]. split; [exact Hnd | exact (set_cell_wf (mkSudoku g) _ _ _ Hwf Hs1)].
  - intros [σ s] c r x [σ' s'] (ls & g & Hr & Hnd & _) Hset. simpl in *. py_inv Hset.
    injection Hset as <- <-. destruct (h_set_cell_Ok_inv _ _ _ _ _ _ _ Hr Hnd Hstep) as (s1 & Hs1 & Hr1).
    rewrite (h_get_cell_repr _ _ _ _ _ Hr1). destruct s1. exact (set_cell_get_same _ c r [] x _ Hs1).
  - intros [σ s] c r x [σ' s'] c' r' (ls & g & Hr & Hnd & _) Hset Hne. simpl in *. py_inv Hset.
    injection Hset as <- <-. destruct (h_set_cell_Ok_inv _ _ _ _ _ _ _ Hr Hnd Hstep) as (s1 & Hs1 & Hr1).
    rewrite (h_get_cell_repr _ _ _ _ _ Hr1), (h_get_cell_repr _ _ _ _ _ Hr). destruct s1.
    apply (set_cell_get_other _ c r [] x _ [c'; r'] Hs1). intros c'' r'' rest' [= <- <- _]. exact Hne.
Qed.

(** The writes that fill in the digits of a grid, row by row: the
    [set_cell] calls a caller makes to copy a board into a new one. *)
Definition writes_of (g : grid) : list write :=
  omap (fun p => match cell_at g p.1 p.2 with Some (Some v) => Some (p.1, p.2, v) | _ => None end)
    positions.

(** A test board: the digit [i + 1] at column [i + 1], row [i + 1],
    every other cell empty. *)
Definition diagonal_numbers : grid :=
  (fun r => (fun c => if Z.eqb c r then Some (r + 1) else None) <$> py_range 9) <$> py_range 9.

(** ** Lemmas *)

Lemma writes_of_elem g c r v :
  (c, r, v) ∈ writes_of g <-> in_board c r /\ cell_at g c r = Some (Some v).
Proof.
  unfold writes_of. rewrite list_elem_of_omap. split.
  - intros ([c' r'] & Hp & Hf). simpl in Hf.
    destruct (cell_at g c' r') as [[v'|]|] eqn:E; try discriminate.
    injection Hf as <- <- <-. split; [now apply positions_elem | exact E].
  - intros [Hin Hx]. exists (c, r). split; [now apply positions_elem|]. simpl. now rewrite Hx.
Qed.

Lemma writes_of_NoDup g : NoDup (write_pos <$> writes_of g).
Proof.
  apply NoDup_omap_key; [|exact positions_NoDup].
  intros [c r] w. simpl. destruct (cell_at g c r) as [[v|]|]; intros H; try discriminate.
  injection H as <-. reflexivity.
Qed.

Lemma writes_of_ok g : wf_grid g -> Forall write_ok (writes_of g).
Proof.
  intros Hg. apply Forall_forall. intros [[c r] v] Hw. apply writes_of_elem in Hw as [Hin Hx].
  split; [exact Hin|]. exact (cell_at_wf g c r _ Hg Hx).
Qed.

(** [writes_of g] writes at each position the digit [g] holds there. *)
Lemma writes_of_last g c r :
  in_board c r ->
  last_write (writes_of g) (c, r) = match cell_at g c r with Some (Some v) => Some v | _ => None end.
Proof.
  intros Hin. destruct (cell_at g c r) as [[v|]|] eqn:Hx.
  1: apply last_write_in; [apply writes_of_NoDup | now apply writes_of_elem].
  all: apply last_write_notin; intros ([[c' r'] v'] & Hw & Hw')%list_elem_of_fmap;
    injection Hw as -> ->; apply writes_of_elem in Hw' as [_ Hx']; congruence.
Qed.

(** A 9x9 grid is determined by what [get_cell] reads at the 81 positions. *)
Lemma shape9_get_cell_inj g1 g2 :
  shape9 g1 -> shape9 g2 ->
  (forall c r, in_board c r -> get_cell (mkSudoku g1) [c; r] = get_cell (mkSudoku g2) [c; r]) ->
  g1 = g2.
Proof.
  intros H1 H2 Hget. apply list_eq. intros i.
  destruct (decide (i < 9)%nat) as [Hi|Hi];
    [|rewrite !lookup_ge_None_2 by (destruct H1, H2; lia); reflexivity].
  destruct (shape9_row g1 (Z.of_nat i + 1) H1) as (row1 & Hr1 & Hl1); [lia|].
  destruct (shape9_row g2 (Z.of_nat i + 1) H2) as (row2 & Hr2 & Hl2); [lia|].
  replace (Z.to_nat (Z.of_nat i + 1 - 1)) with i in Hr1, Hr2 by lia.
  rewrite Hr1, Hr2. f_equal. apply list_eq. intros j.
  destruct (decide (j < 9)%nat) as [Hj|Hj]; [|rewrite !lookup_ge_None_2 by lia; reflexivity].
  destruct (get_cell_shape9 g1 (Z.of_nat j + 1) (Z.of_nat i + 1) [] H1) as (x1 & Hx1 & E1); [lia..|].
  destruct (get_cell_shape9 g2 (Z.of_nat j + 1) (Z.of_nat i + 1) [] H2) as (x2 & Hx2 & E2); [lia..|].
  specialize (Hget (Z.of_nat j + 1) (Z.of_nat i + 1)). rewrite E1, E2 in Hget.
  unfold cell_at in Hx1, Hx2. replace (Z.to_nat (Z.of_nat i + 1 - 1)) with i in Hx1, Hx2 by lia.
  replace (Z.to_nat (Z.of_nat j + 1 - 1)) with j in Hx1, Hx2 by lia.
  rewrite Hr1 in Hx1. rewrite Hr2 in Hx2. rewrite Hx1, Hx2. f_equal.
  injection (Hget ltac:(split; lia)). easy.
Qed.

(** Writing the digits of a well-formed grid into the default board
    rebuilds that grid. *)
Lemma writes_of_run g : wf_grid g -> run_sets (init None) (writes_of g) = Ok (mkSudoku g).
Proof.
  intros Hg.
  destruct (@run_sets_get Sudoku board_store board_laws (init None) (writes_of g)
              empty_numbers_wf (writes_of_ok g Hg))
    as ([g'] & Hrun & Hok & Hget).
  rewrite Hrun. do 2 f_equal. apply shape9_get_cell_inj; [exact (proj1 Hok) | exact (proj1 Hg)|].
  intros c r Hin. cbn [store_get board_store] in Hget. rewrite (Hget c r Hin), writes_of_last by exact Hin.
  destruct Hin as [Hc Hr]. destruct (get_cell_shape9 g c r [] (proj1 Hg) Hc Hr) as (x & Hx & ->).
  rewrite Hx. destruct x as [v|]; [reflexivity|]. exact (empty_numbers_get_cell c r Hc Hr).
Qed.

(** A run of writes over a heap without shared rows answers as the same
    run on the grid the heap holds, errors included. *)
Lemma heap_run_sim σ s ls g ws :
  heap_repr σ (h_numbers s) ls g -> NoDup ls ->
  match run_sets (mkSudoku g) ws with
  | Ok s' => exists σ', run_sets (σ, s) ws = Ok (σ', s) /\ heap_repr σ' (h_numbers s) ls (numbers s')
  | Raise e => run_sets (σ, s) ws = Raise e
  end.
Proof.
  revert σ g. induction ws as [|[[c r] v] ws IH]; intros σ g Hr Hnd; [now exists σ|].
  cbn [run_sets store_set board_store heap_store fst snd].
  pose proof (h_set_cell_sim σ s ls g [c; r] (Some v) Hr Hnd) as Hsim.
  destruct (set_cell (mkSudoku g) [c; r] (Some v)) as [[g1]|e]; cbn [pybind].
  - destruct Hsim as (σ1 & -> & Hr1). cbn [pybind]. exact (IH σ1 g1 Hr1 Hnd).
  - now rewrite Hsim.
Qed.

(** The default heap holds the default grid in nine distinct rows. *)
Lemma default_heap_repr :
  heap_repr default_heap (h_numbers default_board) default_rows empty_numbers /\ NoDup default_rows.
Proof. split; apply (bool_decide_unpack _); vm_compute; exact I. Qed.

(** ** Runs of writes *)

(** C28: runs of writes over the heap.  On a heap whose [self.numbers]
    refers to distinct row objects holding a well-formed board, a run of
    valid writes succeeds, keeps that form, and every read answers the
    last digit written at its position or what it answered before. *)
Theorem heap_run_last_write σ s ws :
  h_ok σ s -> Forall write_ok ws ->
  exists st, run_sets (σ, s) ws = Ok st /\ h_ok st.1 st.2 /\
    forall c r, in_board c r ->
      h_get_cell st.1 st.2 [c; r] =
      match last_write ws (c, r) with Some v => Ok (Some v) | None => h_get_cell σ s [c; r] end.
Proof. exact (@run_sets_get (heap * HSudoku) heap_store heap_laws (σ, s) ws). Qed.

Lemma heap_run_last_write_witness :
  exists st, run_sets (default_heap, default_board) [(9, 9, 1); (9, 9, 2)] = Ok st /\
    h_ok st.1 st.2 /\
    forall c r, in_board c r ->
      h_get_cell st.1 st.2 [c; r] =
      match last_write [(9, 9, 1); (9, 9, 2)] (c, r) with
      | Some v => Ok (Some v) | None => h_get_cell default_heap default_board [c; r] end.
Proof.
  apply heap_run_last_write.
  - exists default_rows, empty_numbers. split; [exact (proj1 default_heap_repr)|].
    split; [exact (proj2 default_heap_repr) | exact empty_numbers_wf].
  - repeat constructor; cbn; unfold in_board; lia.
Defined.

(** C29: simulation along runs.  On a heap whose grid object lists
    pairwise distinct row objects, any run of [set_cell] calls, valid or
    not, raises exactly the exception the same run raises on the grid the
    heap holds, and otherwise leaves in the same row objects the grid
    that run produces. *)
Theorem heap_run_simulates σ s ls g ws :
  heap_repr σ (h_numbers s) ls g -> NoDup ls ->
  match run_sets (mkSudoku g) ws with
  | Ok s' => exists σ', @run_sets (heap * HSudoku) heap_store (σ, s) ws = Ok (σ', s) /\ heap_repr σ' (h_numbers s) ls (numbers s')
  | Raise e => @run_sets (heap * HSudoku) heap_store (σ, s) ws = Raise e
  end.
Proof. exact (heap_run_sim σ s ls g ws). Qed.

Lemma heap_run_simulates_witness :
  match run_sets (mkSudoku empty_numbers) [(1, 1, 5); (10, 1, 3)] with
  | Ok s' => exists σ', run_sets (default_heap, default_board) [(1, 1, 5); (10, 1, 3)] = Ok (σ', default_board) /\
                        heap_repr σ' (h_numbers default_board) default_rows (numbers s')
  | Raise e => run_sets (default_heap, default_board) [(1, 1, 5); (10, 1, 3)] = Raise e
  end.
Proof. apply heap_run_simulates; [exact (proj1 default_heap_repr) | exact (proj2 default_heap_repr)]. Defined.

(** C30: every well-formed board is reachable: starting from the default
    board of [Sudoku()] and calling [set_cell] with each digit of the
    board at its position builds exactly that board. *)
Theorem every_board_reachable g :
  wf_grid g -> run_sets (init None) (writes_of g) = Ok (mkSudoku g).
Proof. exact (writes_of_run g). Qed.

Lemma every_board_reachable_witness :
  run_sets (init None) (writes_of diagonal_numbers) = Ok (mkSudoku diagonal_numbers).
Proof. apply every_board_reachable. apply (bool_decide_unpack _). vm_compute. exact I. Defined.

(** C31: the same over the heap: from the heap [Sudoku()] allocates, the
    calls of [set_cell] with the digits of a well-formed board leave that
    board in the nine distinct row objects of the default grid. *)
Theorem h_every_board_reachable g :
  wf_grid g ->
  exists σ', run_sets (default_heap, default_board) (writes_of g) = Ok (σ', default_board) /\
    heap_repr σ' (h_numbers default_board) default_rows g /\ NoDup default_rows.
Proof.
  intros Hg. destruct default_heap_repr as [Hr Hnd].
  pose proof (heap_run_sim _ _ _ _ (writes_of g) Hr Hnd) as Hsim.
  change (mkSudoku empty_numbers) with (init None) in Hsim.
  rewrite (writes_of_run g Hg) in Hsim. destruct Hsim as (σ' & Hrun & Hr').
  exists σ'. auto.
Qed.

Lemma h_every_board_reachable_witness :
  exists σ', run_sets (default_heap, default_board) (writes_of diagonal_numbers) = Ok (σ', default_board) /\
    heap_repr σ' (h_numbers default_board) default_rows diagonal_numbers /\ NoDup default_rows.
Proof. apply h_every_board_reachable. apply (bool_decide_unpack _). vm_compute. exact I. Defined.

End Runs.
