(* ===== verification/Calls.v ===== *)
(** * The board as a state machine of method calls

    A caller holds one [Sudoku] object and calls its methods in sequence,
    catching the exceptions they raise.  [exec] is one call: the answer
    or the exception, and the object afterwards; [exec_run] a sequence of
    calls.  Every method of [src/my_sudoku.py] writes [self.numbers] only
    in its last statement, after all its [assert]s, so a call that raises
    leaves the object as it was.

    [reachable] is the set of boards a caller reaches from the
    constructor through calls that follow the documentation ([set_sudoku]
    given a 9x9 grid of [None] and digits, as its docstring asks).  The
    theorems, by induction on [reachable] and on runs:
    - every reachable board is well formed (9x9, cells [None] or 1..9);
    - on a reachable board every read at a position in [1..9] succeeds
      and answers [None] or a digit in [1..9], and no documented call
      raises;
    - no call other than [set_sudoku] ever empties a cell. *)

From Stdlib Require Import ZArith Lia.
From stdpp Require Import base list option.
From S2P Require Import Prelude Board Validate Rules.

Module Calls.

Import Board Validate Rules.
Local Open Scope Z_scope.

(** A method call with its arguments. *)
Inductive call :=
  | CGetCell (pos : list Z)
  | CSetCell (pos : list Z) (value : cell)
  | CGetSudoku
  | CSetSudoku (numbers : grid)
  | CValidate.

(** What a call returns: a cell, the grid, Python's [None], or the
    result of [validate]. *)
Inductive answer :=
  | RCell (x : cell)
  | RGrid (g : grid)
  | RNone
  | RValid (b : option bool).

(** One call on the object [s]. *)
Definition exec (s : Sudoku) (c : call) : pyres answer * Sudoku :=
  match c with
  | CGetCell pos => (x <- get_cell s pos ;; Ok (RCell x), s)
  | CSetCell pos v =>
      match set_cell s pos v with
      | Ok s' => (Ok RNone, s')
      | Raise e => (Raise e, s)
      end
  | CGetSudoku => (Ok (RGrid (get_sudoku s)), s)
  | CSetSudoku g => (Ok RNone, set_sudoku s g)
  | CValidate => (b <- validate s ;; Ok (RValid b), s)
  end.

(** A sequence of calls; the caller catches each exception and goes on. *)
Fixpoint exec_run (s : Sudoku) (cs : list call) : list (pyres answer) * Sudoku :=
  match cs with
  | [] => ([], s)
  | c :: cs' =>
      let '(a, s1) := exec s c in
      let '(answers, s2) := exec_run s1 cs' in
      (a :: answers, s2)
  end.

(** The argument the constructor documents: nothing, or a 9x9 grid. *)
Definition documented_arg (numbers : option grid) : Prop :=
  match numbers with
  | None => True
  | Some g => g = [] \/ wf_grid g
  end.

(** A call as documented: [set_sudoku] is given a 9x9 grid of [None]
    and digits. *)
Definition documented_call (c : call) : Prop :=
  match c with
  | CSetSudoku g => wf_grid g
  | _ => True
  end.

(** A call whose arguments are in the documented ranges: positions in
    [1..9] and, for [set_cell], a digit. *)
Definition in_range_call (c : call) : Prop :=
  match c with
  | CGetCell [col; row] => 1 <= col <= 9 /\ 1 <= row <= 9
  | CSetCell [col; row] (Some v) => 1 <= col <= 9 /\ 1 <= row <= 9 /\ 1 <= v <= 9
  | CGetCell _ | CSetCell _ _ => False
  | CSetSudoku g => wf_grid g
  | CGetSudoku | CValidate => True
  end.

Definition is_set_sudoku (c : call) : bool :=
  match c with CSetSudoku _ => true | _ => false end.

(** The boards reachable by documented calls from the constructor. *)
Inductive reachable : Sudoku -> Prop :=
  | reachable_init numbers :
      documented_arg numbers -> reachable (init numbers)
  | reachable_call s c :
      reachable s -> documented_call c -> reachable (exec s c).2.

(** ** Lemmas *)

Lemma init_wf arg : documented_arg arg -> wf_grid (numbers (init arg)).
Proof.
  destruct arg as [[|row g]|]; simpl; intros H; [exact empty_numbers_wf | | exact empty_numbers_wf].
  destruct H as [H|H]; [discriminate | exact H].
Qed.

Lemma exec_wf s c : wf_grid (numbers s) -> documented_call c -> wf_grid (numbers (exec s c).2).
Proof.
  intros Hwf Hc. destruct c as [pos|pos v| |g|]; simpl; try exact Hwf; [|exact Hc].
  destruct (set_cell s pos v) as [s'|e] eqn:E; [exact (set_cell_wf _ _ _ _ Hwf E) | exact Hwf].
Qed.

Lemma reachable_inv s : reachable s -> wf_grid (numbers s).
Proof. induction 1; [apply init_wf | apply exec_wf]; assumption. Qed.

(** A call other than [set_sudoku] leaves a cell that holds a digit
    holding a digit: [set_cell] cannot write [None]. *)
Lemma exec_keeps_digit s c pos v :
  is_set_sudoku c = false -> get_cell s pos = Ok (Some v) ->
  exists v', get_cell (exec s c).2 pos = Ok (Some v').
Proof.
  destruct c as [p|p x| |g|]; simpl; intros Hc H; try (exists v; exact H); [|discriminate].
  destruct (set_cell s p x) as [s'|e] eqn:E; [|exists v; exact H].
  destruct (set_cell_Ok_inv _ _ _ _ E) as (c & r & rest & w & -> & -> & _).
  destruct pos as [|c' [|r' rest']];
    [exists v; rewrite (set_cell_get_other _ _ _ _ _ _ _ E); [exact H | discriminate]..|].
  destruct (decide ((c', r') = (c, r))) as [[= -> ->]|Hne].
  - exists w. rewrite (get_cell_rest _ _ _ _ rest). exact (set_cell_get_same _ _ _ _ _ _ E).
  - exists v. rewrite (set_cell_get_other _ _ _ _ _ _ _ E); [exact H|].
    intros c0 r0 rest0 [= <- <- <-]. exact Hne.
Qed.

Lemma exec_run_cons s c cs : (exec_run s (c :: cs)).2 = (exec_run (exec s c).2 cs).2.
Proof. simpl. destruct (exec s c), (exec_run _ cs). reflexivity. Qed.


(** ** Reachable boards *)

(** C32: invariant.  Every board reachable from the constructor by
    documented calls is well formed: 9x9, every cell [None] or in
    [1..9]. *)
Theorem reachable_wf s : reachable s -> wf_grid (numbers s).
Proof. exact (reachable_inv s). Qed.

Lemma reachable_wf_witness :
  wf_grid (numbers (exec (init None) (CSetCell [1; 1] (Some 5))).2).
Proof.
  apply reachable_wf. apply reachable_call; [apply reachable_init|]; exact I.
Defined.

(** C33: bounds.  On a reachable board, [get_cell] at a column and row in
    [1..9] returns normally, and what it returns is [None] or a digit in
    [1..9]. *)
Theorem reachable_get_cell s c r :
  reachable s -> 1 <= c <= 9 -> 1 <= r <= 9 ->
  exists x, get_cell s [c; r] = Ok x /\ cell_ok x.
Proof.
  intros Hs Hc Hr. pose proof (reachable_inv s Hs) as Hwf. destruct s as [g].
  destruct (get_cell_shape9 g c r [] (proj1 Hwf) Hc Hr) as (x & Hx & E).
  exists x. split; [exact E | exact (cell_at_wf g c r x Hwf Hx)].
Qed.

Lemma reachable_get_cell_witness :
  exists x, get_cell (exec (init None) (CSetCell [2; 7] (Some 4))).2 [2; 7] = Ok x /\ cell_ok x.
Proof.
  apply reachable_get_cell; [|lia|lia].
  apply reachable_call; [apply reachable_init|]; exact I.
Defined.

(** C34: safety.  On a reachable board, no call whose arguments are in
    the documented ranges raises: reads and writes at positions in
    [1..9] with digits, [get_sudoku], [set_sudoku] of a 9x9 grid and
    [validate] all return normally. *)
Theorem reachable_calls_succeed s c :
  reachable s -> in_range_call c -> exists a, (exec s c).1 = Ok a.
Proof.
  intros Hs Hc. pose proof (reachable_inv s Hs) as [Hg _]. destruct s as [g].
  destruct c as [[|col [|row [|]]]|[|col [|row [|]]] [v|]| |g'|]; simpl in *; try contradiction; eauto.
  - destruct Hc as [Hcol Hrow]. destruct (get_cell_shape9 g col row [] Hg Hcol Hrow) as (x & _ & ->).
    eexists. reflexivity.
  - destruct Hc as (Hcol & Hrow & Hv).
    destruct (set_cell_shape9 g col row [] v Hg Hcol Hrow Hv) as (g1 & _ & ->). eauto.
  - destruct (validate_shape9_cases g Hg) as [[_ ->] | [_ ->]]; eexists; reflexivity.
Qed.

Lemma reachable_calls_succeed_witness :
  exists a, (exec (exec (init None) (CSetCell [3; 3] (Some 8))).2 CValidate).1 = Ok a.
Proof.
  apply reachable_calls_succeed; [|exact I].
  apply reachable_call; [apply reachable_init|]; exact I.
Defined.

(** C35: safety.  No sequence of calls without [set_sudoku], documented
    or not, empties a cell: a position where [get_cell] reads a digit
    still reads a digit after the sequence, since [set_cell] raises on
    [None] although its docstring allows it. *)
Theorem exec_run_keeps_filled s cs pos v :
  Forall (fun c => is_set_sudoku c = false) cs -> get_cell s pos = Ok (Some v) ->
  exists v', get_cell (exec_run s cs).2 pos = Ok (Some v').
Proof.
  intros Hcs. revert s v. induction Hcs as [|c cs Hc _ IH]; intros s v H; [exists v; exact H|].
  rewrite exec_run_cons. destruct (exec_keeps_digit s c pos v Hc H) as [v1 H1]. exact (IH _ _ H1).
Qed.

Lemma exec_run_keeps_filled_witness :
  exists v', get_cell (exec_run (mkSudoku (<[0%nat := <[0%nat := Some 5]> ((fun _ => None) <$> py_range 9)]> empty_numbers))
                        [CSetCell [1; 1] None; CGetCell [1; 1]; CSetCell [1; 1] (Some 3); CValidate]).2
               [1; 1] = Ok (Some v').
Proof. apply (exec_run_keeps_filled _ _ _ 5); [repeat constructor | vm_compute; reflexivity]. Defined.

End Calls.
